(** * doccano API views: annotation progress, single-class guard,
      import/export format dispatch and label upload

    A shallow embedding of [app/api/views.py].  Django querysets become
    list computations over an explicit database value, Python dictionaries
    and sets become stdpp [gmap]s and [gset]s, Python exceptions become the
    [Raise] case of a result type, and views that write to the database
    thread it explicitly. *)

From Stdlib Require Import ZArith String List Lia Sorted.
From stdpp Require Import base gmap sets list strings sorting.

Local Open Scope Z_scope.
#[local] Set Warnings "-clear-no-such-hyp".

(** ** Exceptions and results *)

(** The exceptions the views raise or let through. *)
Inductive Exn : Type :=
  | Http404
  | ParseError (detail : string)
  | ValidationError (detail : string)
  | IntegrityError
  | KeyError (key : string).

Inductive Result (A : Type) : Type :=
  | Ok (a : A)
  | Raise (e : Exn).
Arguments Ok {A} a.
Arguments Raise {A} e.

#[global] Instance result_ret : MRet Result := λ A a, Ok a.
#[global] Instance result_bind : MBind Result := λ A B k r,
  match r with
  | Ok a => k a
  | Raise e => Raise e
  end.

(** ** The data model (models.py rows as records) *)

Module Models.

Record User : Type := mkUser {
  user_id : Z;
  username : string
}.

Inductive ProjectType : Type :=
  | TextClassificationProject
  | SequenceLabelingProject
  | Seq2seqProject.

Record Project : Type := mkProject {
  project_id : Z;
  project_type : ProjectType;
  collaborative_annotation : bool;
  single_class_classification : bool;
  randomize_document_order : bool
}.

Record Document : Type := mkDocument {
  doc_id : Z;
  doc_project : Z;
  doc_text : string
}.

Record Label : Type := mkLabel {
  label_id : Z;
  label_project : Z;
  label_text : string;
  label_shortkey : string
}.

(** The three annotation models; a project uses exactly one of them. *)
Inductive AnnotationClass : Type :=
  | DocumentAnnotation
  | SequenceAnnotation
  | Seq2seqAnnotation.

Inductive AnnotationBody : Type :=
  | Classification (label : Z)
  | Span (label start_offset end_offset : Z)
  | Seq2Seq (text : string).

Record Annotation : Type := mkAnnotation {
  ann_id : Z;
  ann_document : Z;
  ann_user : Z;
  ann_body : AnnotationBody
}.

(** The database: one list of rows per table, in insertion order. *)
Record DB : Type := mkDB {
  users : list User;
  projects : list Project;
  documents : list Document;
  labels : list Label;
  doc_annotations : list Annotation;
  seq_annotations : list Annotation;
  seq2seq_annotations : list Annotation
}.

(** [annotation_class.objects]: the table of an annotation model. *)
Definition objects (db : DB) (annotation_class : AnnotationClass) : list Annotation :=
  match annotation_class with
  | DocumentAnnotation => doc_annotations db
  | SequenceAnnotation => seq_annotations db
  | Seq2seqAnnotation => seq2seq_annotations db
  end.

(** Modelled from the spec: [Project.get_annotation_class] is declared in
    models.py, which is not part of the sources at hand.  The data model
    fixes one annotation variant per project type, selected once. *)
Definition get_annotation_class (project : Project) : AnnotationClass :=
  match project_type project with
  | TextClassificationProject => DocumentAnnotation
  | SequenceLabelingProject => SequenceAnnotation
  | Seq2seqProject => Seq2seqAnnotation
  end.

(** [get_object_or_404(Project, pk=...)]. *)
Definition get_object_or_404 (db : DB) (pk : Z) : Result Project :=
  match List.find (λ p, project_id p =? pk) (projects db) with
  | Some p => Ok p
  | None => Raise Http404
  end.

(** [project.documents]: the related manager, the rows of the project.
    They are listed as the table holds them; this order is a
    representation only.  A query that does not ask for an order, such as
    [project.documents.all()], returns the rows in an order the database
    chooses, and where that order shows in a result it is a parameter. *)
Definition project_documents (db : DB) (project : Project) : list Document :=
  List.filter (λ d, doc_project d =? project_id project) (documents db).

(** [project.labels]. *)
Definition project_labels (db : DB) (project : Project) : list Label :=
  List.filter (λ l, label_project l =? project_id project) (labels db).

(** The join [annotation -> user] behind [user__username]: the name of
    the user row the annotation's foreign key points to. *)
Definition user__username (db : DB) (a : Annotation) : option string :=
  username <$> List.find (λ u, user_id u =? ann_user a) (users db).

(** ** [Q] objects: filters over annotation rows *)
Definition Q : Type := Annotation → bool.

Definition Q_document_id__in (docs : list Document) : Q :=
  λ a, bool_decide (ann_document a ∈ doc_id <$> docs).

Definition Q_user_id (user : User) : Q :=
  λ a, ann_user a =? user_id user.

Definition Q_and (q1 q2 : Q) : Q := λ a, q1 a && q2 a.

(** [.aggregate(Count('document', distinct=True))['document__count']]. *)
Definition count_distinct_document (rows : list Annotation) : Z :=
  Z.of_nat (size (list_to_set (ann_document <$> rows) : gset Z)).

End Models.
Import Models.

(** ** StatisticsAPI *)

(** The values a statistics response binds its keys to. *)
Inductive Value : Type :=
  | VInt (n : Z)
  | VCounts (counts : gmap string Z).

Module StatisticsAPI.

(** [set_user_data[row.username].add(row.document_id)], on a
    [defaultdict(set)]. *)
Definition add_row (set_user_data : gmap string (gset Z)) (ind_obj : string * Z)
  : gmap string (gset Z) :=
  <[ind_obj.1 := default ∅ (set_user_data !! ind_obj.1) ∪ {[ind_obj.2]}]> set_user_data.

(** [.values('user__username', 'document__id')]: an inner join with the
    user table. *)
Definition values_username_document (db : DB) (rows : list Annotation)
  : list (string * Z) :=
  omap (λ a, name ← user__username db a; Some (name, ann_document a)) rows.

Definition _get_user_completion_data (db : DB) (annotation_class : AnnotationClass)
    (annotation_filter : Q) : gmap string Z :=
  let all_annotation_objects := List.filter annotation_filter (objects db annotation_class) in
  let set_user_data :=
    foldl add_row ∅ (values_username_document db all_annotation_objects) in
  (λ s : gset Z, Z.of_nat (size s)) <$> set_user_data.

Definition progress (db : DB) (request_user : User) (project : Project)
  : gmap string Value :=
  let docs := project_documents db project in
  let annotation_class := get_annotation_class project in
  let total := Z.of_nat (length docs) in
  let annotation_filter := Q_document_id__in docs in
  let user_data := _get_user_completion_data db annotation_class annotation_filter in
  let annotation_filter :=
    if negb (collaborative_annotation project)
    then Q_and annotation_filter (Q_user_id request_user)
    else annotation_filter in
  let done := count_distinct_document
                (List.filter annotation_filter (objects db annotation_class)) in
  let remaining := total - done in
  <["total" := VInt total]>
    (<["remaining" := VInt remaining]>
      (<["user" := VCounts user_data]> ∅)).

Section Get.
(** [annotation_class.objects.get_label_per_data(project=project)] is a
    manager method of models.py; it is taken as a parameter returning
    the label counts and the per-user counts. *)
Variable get_label_per_data :
  DB → AnnotationClass → Project → gmap string Z * gmap string Z.

Definition label_per_data (db : DB) (project : Project)
  : gmap string Z * gmap string Z :=
  let annotation_class := get_annotation_class project in
  get_label_per_data db annotation_class project.

(** [response.update(progress)]: the keys of [progress] win. *)
Definition update (response progress : gmap string Value) : gmap string Value :=
  progress ∪ response.

Definition get (db : DB) (request_user : User) (GET_include : list string)
    (project_id : Z) : Result (gmap string Value) :=
  p ← get_object_or_404 db project_id;
  let include : gset string := list_to_set GET_include in
  let response : gmap string Value := ∅ in
  let response :=
    if bool_decide (include = ∅) || bool_decide ("label" ∈ include) then
      let '(label_count, user_count) := label_per_data db p in
      let response := <["label" := VCounts label_count]> response in
      <["user_label" := VCounts user_count]> response
    else response in
  let response :=
    if bool_decide (include = ∅) || bool_decide ("total" ∈ include)
       || bool_decide ("remaining" ∈ include) || bool_decide ("user" ∈ include) then
      let progress := progress db request_user p in
      update response progress
    else response in
  let response :=
    if bool_decide (include ≠ ∅) then
      filter (λ kv : string * Value, kv.1 ∈ include) response
    else response in
  Ok response.
End Get.

End StatisticsAPI.


(** ** JSON values and responses *)

#[local] Set Warnings "-register-all".
Inductive JSON : Type :=
  | JNull
  | JInt (n : Z)
  | JStr (s : string)
  | JArr (items : list JSON)
  | JObj (fields : list (string * JSON)).

Record Response : Type := mkResponse {
  data : JSON;
  status : Z
}.

Definition HTTP_201_CREATED : Z := 201.
Definition HTTP_400_BAD_REQUEST : Z := 400.

(** ** AnnotationList *)

Module AnnotationList.

Definition duplicate_detail : string :=
  "requested to create duplicate annotation for single-class-classification project".

(** [queryset.exists()]. *)
Definition exists_ {A : Type} (queryset : list A) : bool :=
  match queryset with
  | [] => false
  | _ :: _ => true
  end.

Definition check_single_class_classification (db : DB) (project_id doc_id : Z)
    (user : User) : Result unit :=
  project ← get_object_or_404 db project_id;
  if negb (single_class_classification project) then Ok tt
  else
    let model := get_annotation_class project in
    let annotations := List.filter (λ a, ann_document a =? doc_id) (objects db model) in
    let annotations :=
      if negb (collaborative_annotation project)
      then List.filter (λ a, ann_user a =? user_id user) annotations
      else annotations in
    if exists_ annotations
    then Raise (ValidationError duplicate_detail)
    else Ok tt.

(** The next value of an auto-increment primary key. *)
Definition next_id (ids : list Z) : Z := 1 + foldr Z.max 0 ids.

(** Appending a row to the table of an annotation model. *)
Definition insert_annotation (db : DB) (model : AnnotationClass) (row : Annotation) : DB :=
  match model with
  | DocumentAnnotation =>
      mkDB (users db) (projects db) (documents db) (labels db)
           (doc_annotations db ++ [row]) (seq_annotations db) (seq2seq_annotations db)
  | SequenceAnnotation =>
      mkDB (users db) (projects db) (documents db) (labels db)
           (doc_annotations db) (seq_annotations db ++ [row]) (seq2seq_annotations db)
  | Seq2seqAnnotation =>
      mkDB (users db) (projects db) (documents db) (labels db)
           (doc_annotations db) (seq_annotations db) (seq2seq_annotations db ++ [row])
  end.

Section Create.
(** The annotation serializers live in serializers.py; their validation
    ([is_valid(raise_exception=True)]) is a parameter that either yields
    the validated annotation body or raises. *)
Variable serializer_is_valid :
  DB → AnnotationClass → gmap string JSON → Result AnnotationBody.

(** [perform_create]: [serializer.save(document_id=doc_id, user=request.user)]. *)
Definition perform_create (db : DB) (model : AnnotationClass) (doc_id : Z)
    (user : User) (body : AnnotationBody) : DB :=
  let row := mkAnnotation (next_id (ann_id <$> objects db model)) doc_id (user_id user) body in
  insert_annotation db model row.

(** [super().create(...)] of the generic list-create view: pick the
    serializer of the project, validate, save, answer 201 (the body of the
    answer, the serialized row, is left out). *)
Definition super_create (db : DB) (project_id doc_id : Z) (user : User)
    (request_data : gmap string JSON) : Result Response * DB :=
  match get_object_or_404 db project_id with
  | Raise e => (Raise e, db)
  | Ok project =>
      let model := get_annotation_class project in
      match serializer_is_valid db model request_data with
      | Raise e => (Raise e, db)
      | Ok body =>
          let db' := perform_create db model doc_id user body in
          (Ok (mkResponse JNull HTTP_201_CREATED), db')
      end
  end.

Definition create (db : DB) (project_id doc_id : Z) (user : User)
    (request_data : gmap string JSON) : Result Response * DB :=
  match check_single_class_classification db project_id doc_id user with
  | Raise e => (Raise e, db)
  | Ok _ =>
      let request_data := <["document" := JInt doc_id]> request_data in
      super_create db project_id doc_id user request_data
  end.
End Create.

(** [get_queryset]: the annotations of the document, the requesting
    user's own only when the project is not collaborative. *)
Definition get_queryset (db : DB) (project_id doc_id : Z) (request_user : User)
    : Result (list Annotation) :=
  project ← get_object_or_404 db project_id;
  let model := get_annotation_class project in
  let queryset := List.filter (λ a, ann_document a =? doc_id) (objects db model) in
  let queryset :=
    if negb (collaborative_annotation project)
    then List.filter (λ a, ann_user a =? user_id request_user) queryset
    else queryset in
  Ok queryset.

End AnnotationList.

(** ** Upload: format dispatch *)

Inductive Parser : Type :=
  | PlainTextParser
  | CSVParser
  | JSONParser
  | CoNLLParser
  | ExcelParser
  | AudioParser.

(** ['format {} is invalid.'.format(file_format)]. *)
Definition invalid_format_detail (file_format : string) : string :=
  "format " +:+ file_format +:+ " is invalid.".

(** What an upload can touch: the database and the read position of the
    uploaded file (the number of records consumed from it). *)
Record World : Type := mkWorld {
  world_db : DB;
  file_position : nat
}.

Module GCPUploadAPI.

Definition select_parser (file_format : string) : Result Parser :=
  if String.eqb file_format "plain" then Ok PlainTextParser
  else if String.eqb file_format "csv" then Ok CSVParser
  else if String.eqb file_format "json" then Ok JSONParser
  else if String.eqb file_format "conll" then Ok CoNLLParser
  else if String.eqb file_format "excel" then Ok ExcelParser
  else if String.eqb file_format "audio" then Ok AudioParser
  else Raise (ValidationError (invalid_format_detail file_format)).

Section SaveFile.
(** The parsers and the storages are parameters, as for the text upload. *)
Variables File Data : Type.
Variable parse : Parser → File → World → Result Data * World.
Variable storage_save : Project → Data → User → World → Result unit * World.

Definition save_file (user : User) (file : File) (file_format : string)
    (project_id : Z) (w : World) : Result unit * World :=
  match get_object_or_404 (world_db w) project_id with
  | Raise e => (Raise e, w)
  | Ok project =>
      match select_parser file_format with
      | Raise e => (Raise e, w)
      | Ok parser =>
          match parse parser file w with
          | (Raise e, w1) => (Raise e, w1)
          | (Ok data, w1) => storage_save project data user w1
          end
      end
  end.
End SaveFile.

End GCPUploadAPI.

Module TextUploadAPI.

Definition select_parser (file_format : string) : Result Parser :=
  if String.eqb file_format "plain" then Ok PlainTextParser
  else if String.eqb file_format "csv" then Ok CSVParser
  else if String.eqb file_format "json" then Ok JSONParser
  else if String.eqb file_format "conll" then Ok CoNLLParser
  else if String.eqb file_format "excel" then Ok ExcelParser
  else if String.eqb file_format "audio" then Ok AudioParser
  else Raise (ValidationError (invalid_format_detail file_format)).

Section SaveFile.
(** The parsers and the storages live in utils.py and models.py.  They
    are parameters: [parse] and [storage_save] may read the file and write
    the database in any way. *)
Variables File Data : Type.
Variable parse : Parser → File → World → Result Data * World.
Variable storage_save : Project → Data → User → World → Result unit * World.

Definition save_file (user : User) (file : File) (file_format : string)
    (project_id : Z) (w : World) : Result unit * World :=
  match get_object_or_404 (world_db w) project_id with
  | Raise e => (Raise e, w)
  | Ok project =>
      match select_parser file_format with
      | Raise e => (Raise e, w)
      | Ok parser =>
          match parse parser file w with
          | (Raise e, w1) => (Raise e, w1)
          | (Ok data, w1) =>
              (* storage = project.get_storage(data); storage.save(user) *)
              storage_save project data user w1
          end
      end
  end.

(** [request.data] of the multipart upload. *)
Record UploadRequest : Type := mkUploadRequest {
  request_file : option File;
  request_format : option string
}.

Definition post (user : User) (request : UploadRequest) (project_id : Z)
    (w : World) : Result Response * World :=
  match request_file request with
  | None => (Raise (ParseError "Empty content"), w)
  | Some file =>
      match request_format request with
      | None => (Raise (KeyError "format"), w)
      | Some file_format =>
          match save_file user file file_format project_id w with
          | (Raise e, w') => (Raise e, w')
          | (Ok _, w') => (Ok (mkResponse JNull HTTP_201_CREATED), w')
          end
      end
  end.
End SaveFile.

End TextUploadAPI.


(** ** DocumentList: the presentation order of documents *)

Module DocumentList.

(** [queryset.order_by(key)]: a stable insertion sort on an integer key. *)
Fixpoint insert_by {A : Type} (key : A → Z) (x : A) (l : list A) : list A :=
  match l with
  | [] => [x]
  | y :: l' => if key x <? key y then x :: y :: l' else y :: insert_by key x l'
  end.

Definition order_by {A : Type} (key : A → Z) (queryset : list A) : list A :=
  foldr (λ x sorted, insert_by key x sorted) [] (rev queryset).

Definition get_queryset (db : DB) (request_user : User) (project_id : Z)
    : Result (list Document) :=
  project ← get_object_or_404 db project_id;
  let queryset := project_documents db project in
  let queryset :=
    if randomize_document_order project
    then order_by (λ d, Z.rem (doc_id d) (user_id request_user)) queryset
    else order_by doc_id queryset in
  Ok queryset.

End DocumentList.

(** ** Painters (utils.py) *)

Inductive Painter : Type :=
  | CSVPainter
  | JSONPainter.

Module Painters.

(** Modelled from the spec: the document serializer of serializers.py is
    not part of the sources at hand.  A document is serialized with its
    annotations: the rows of the project's annotation model that point to
    the document. *)
Definition annotations_of (db : DB) (project : Project) (d : Document) : list Annotation :=
  List.filter (λ a, ann_document a =? doc_id d) (objects db (get_annotation_class project)).

(** Modelled from the spec: the plain JSON rendering of one annotation,
    [{"label": <label_id>, "start_offset":, "end_offset":, "user": <user_id>}];
    utils.py, which defines the painters, is not part of the sources at
    hand.  The label is referenced by its numeric id, as the comment in
    [TextDownloadAPI.get] says of the json format. *)
Definition paint_annotation (a : Annotation) : JSON :=
  match ann_body a with
  | Classification label =>
      JObj [("label", JInt label); ("user", JInt (ann_user a))]
  | Span label start_offset end_offset =>
      JObj [("label", JInt label); ("start_offset", JInt start_offset);
            ("end_offset", JInt end_offset); ("user", JInt (ann_user a))]
  | Seq2Seq text =>
      JObj [("text", JStr text); ("user", JInt (ann_user a))]
  end.

(** Modelled from the spec: the plain JSON record of one document,
    [{"text":..., "annotations":[...]}]. *)
Definition paint_json_document (db : DB) (project : Project) (d : Document) : JSON :=
  JObj [("text", JStr (doc_text d));
        ("annotations", JArr (paint_annotation <$> annotations_of db project d))].

(** Modelled from the spec: [JSONPainter.paint], one record per document,
    in the order of the documents given. *)
Definition paint_json (db : DB) (project : Project) (documents : list Document) : list JSON :=
  paint_json_document db project <$> documents.

(** Modelled from the spec: label resolution for json1.  The label id of
    an annotation is replaced by the name of the project label with that
    id; when no such label is left the numeric id is kept. *)
Definition resolve_label (labels : list Label) (label : Z) : JSON :=
  match List.find (λ x, label_id x =? label) labels with
  | Some x => JStr (label_text x)
  | None => JInt label
  end.

(** Modelled from the spec: one json1 entry [[start_offset, end_offset,
    "LABEL_NAME"]] per span annotation. *)
Definition paint_label (labels : list Label) (a : Annotation) : option JSON :=
  match ann_body a with
  | Span label start_offset end_offset =>
      Some (JArr [JInt start_offset; JInt end_offset; resolve_label labels label])
  | _ => None
  end.

(** Modelled from the spec: the json1 record of one document,
    [{"text":..., "labels":[[start, end, name], ...]}]. *)
Definition paint_labels_document (db : DB) (project : Project) (labels : list Label)
    (d : Document) : JSON :=
  JObj [("text", JStr (doc_text d));
        ("labels", JArr (omap (paint_label labels) (annotations_of db project d)))].

(** Modelled from the spec: [JSONPainter.paint_labels(documents, labels)],
    one record per document, in the order of the documents given. *)
Definition paint_labels (db : DB) (project : Project) (documents : list Document)
    (labels : list Label) : list JSON :=
  paint_labels_document db project labels <$> documents.

Section Paint.
(** Modelled from the spec: the CSV painter renders one flattened row per
    document from the document, its annotations and the labels of the
    project; the rendering of a row is a parameter. *)
Variable csv_row : Document → list Annotation → list Label → JSON.

Definition paint_csv_document (db : DB) (project : Project) (d : Document) : JSON :=
  csv_row d (annotations_of db project d) (project_labels db project).

Definition paint (painter : Painter) (db : DB) (project : Project)
    (documents : list Document) : list JSON :=
  match painter with
  | CSVPainter => paint_csv_document db project <$> documents
  | JSONPainter => paint_json db project documents
  end.
End Paint.

End Painters.

(** ** TextDownloadAPI *)

Module TextDownloadAPI.

(** [str.format] of the query parameter, which is [None] when absent. *)
Definition format_repr (format : option string) : string :=
  match format with
  | Some f => f
  | None => "None"
  end.

Definition select_painter (format : option string) : Result Painter :=
  if bool_decide (format = Some "csv") then Ok CSVPainter
  else if bool_decide (format = Some "json") || bool_decide (format = Some "json1")
  then Ok JSONPainter
  else Raise (ValidationError (invalid_format_detail (format_repr format))).

Section Get.
Variable csv_row : Document → list Annotation → list Label → JSON.

(** The order in which the database returns the rows of a query without
    ORDER BY.  [project.documents.all()] asks for no order, so the order
    of its rows is the database's choice and not fixed by the view. *)
Variable database_order : list Document → list Document.

(** [request.query_params.get('q')] is the argument [q]. *)
Definition get (db : DB) (q : option string) (project_id : Z) : Result (list JSON) :=
  let format := q in
  project ← get_object_or_404 db project_id;
  let documents := database_order (project_documents db project) in
  painter ← select_painter format;
  let data :=
    if bool_decide (format = Some "json1") then
      let labels := project_labels db project in
      Painters.paint_labels db project documents labels
    else
      Painters.paint csv_row painter db project documents in
  Ok data.
End Get.

End TextDownloadAPI.


(** ** GCPDownloaderAPI *)

Module GCPDownloaderAPI.

(** Here the format is the value of [request.data['format']], a string. *)
Definition select_painter (format : string) : Result Painter :=
  if String.eqb format "csv" then Ok CSVPainter
  else if String.eqb format "json" || String.eqb format "json1" then Ok JSONPainter
  else Raise (ValidationError (invalid_format_detail format)).

End GCPDownloaderAPI.

(** ** LabelUploadAPI *)

Module LabelUploadAPI.

(** One entry of the uploaded JSON file, as [LabelSerializer] reads it. *)
Record LabelData : Type := mkLabelData {
  data_text : string;
  data_shortkey : string
}.

(** A request running inside [transaction.atomic].  [store] is the
    committed database, which other requests keep committing to; [own] are
    the label rows this transaction has inserted and not yet committed;
    [needs_rollback] is the mark Django puts on the connection when a
    statement fails inside an atomic block. *)
Record Txn : Type := mkTxn {
  store : DB;
  own : list Label;
  needs_rollback : bool
}.

(** The label rows a statement of the transaction sees. *)
Definition visible_labels (t : Txn) : list Label := labels (store t) ++ own t.

Definition with_labels (db : DB) (ls : list Label) : DB :=
  mkDB (users db) (projects db) (documents db) ls
       (doc_annotations db) (seq_annotations db) (seq2seq_annotations db).

(** Modelled from the spec: the uniqueness constraints of the label table,
    declared in models.py, which is not part of the sources at hand: a
    label is unique by (project, name) and by (project, shortkey). *)
Definition conflicts (l1 l2 : Label) : bool :=
  (label_project l1 =? label_project l2)
  && (String.eqb (label_text l1) (label_text l2)
      || String.eqb (label_shortkey l1) (label_shortkey l2)).

(** [serializer.save(project=project)]: insert the row, or raise
    [IntegrityError] on a uniqueness violation; [Model.save] marks the
    transaction for rollback when its statement fails inside an atomic
    block. *)
Definition serializer_save (project : Project) (label : LabelData) (t : Txn)
    : Result unit * Txn :=
  let row := mkLabel (AnnotationList.next_id (label_id <$> visible_labels t))
                     (project_id project) (data_text label) (data_shortkey label) in
  if existsb (conflicts row) (visible_labels t)
  then (Raise IntegrityError, mkTxn (store t) (own t) true)
  else (Ok tt, mkTxn (store t) (own t ++ [row]) (needs_rollback t)).

(** Label rows committed by other requests while this one is running.
    They are whatever the database accepted from those requests; nothing
    is assumed about them. *)
Definition others_commit (rows : list Label) (t : Txn) : Txn :=
  mkTxn (with_labels (store t) (labels (store t) ++ rows)) (own t) (needs_rollback t).

(** [transaction.atomic] of Django: the block runs on a transaction of its
    own.  When the block is left, its rows are committed if it returned
    normally and the transaction is not marked for rollback; they are
    dropped if an exception leaves the block and also if a statement
    failed inside it, even when the block caught the exception, as [post]
    does with [IntegrityError]. *)
Definition atomic {A : Type} (block : Txn → Result A * Txn) (db : DB) : Result A * DB :=
  let '(r, t) := block (mkTxn db [] false) in
  match r with
  | Ok _ =>
      if needs_rollback t then (r, store t)
      else (r, with_labels (store t) (visible_labels t))
  | Raise _ => (r, store t)
  end.

Definition integrity_error_content : JSON :=
  JObj [("error",
         JStr "IntegrityError: you cannot create a label with same name or shortkey.")].

Section Post.
(** [serializer.is_valid(raise_exception=True)] of [LabelSerializer]
    (serializers.py): the field validation is a parameter. *)
Variable serializer_is_valid : LabelData → bool.

(** The [for label in labels] loop.  [others] lists, for each iteration,
    the label rows other requests commit just before its statements run;
    the empty list is a request running alone. *)
Fixpoint save_labels (project : Project) (labels : list LabelData)
    (others : list (list Label)) (t : Txn) : Result unit * Txn :=
  match labels with
  | [] => (Ok tt, t)
  | label :: labels' =>
      let t := others_commit (hd [] others) t in
      if serializer_is_valid label then
        match serializer_save project label t with
        | (Ok _, t') => save_labels project labels' (tl others) t'
        | (Raise e, t') => (Raise e, t')
        end
      else (Raise (ValidationError "invalid label"), t)
  end.

(** [request.data['file']], already decoded by [json.load]. *)
Definition post (others : list (list Label)) (request_file : option (list LabelData))
    (project_id : Z) : DB → Result Response * DB :=
  atomic (λ t,
    match request_file with
    | None => (Raise (ParseError "Empty content"), t)
    | Some labels =>
        match get_object_or_404 (store t) project_id with
        | Raise e => (Raise e, t)
        | Ok project =>
            match save_labels project labels others t with
            | (Ok _, t') => (Ok (mkResponse JNull HTTP_201_CREATED), t')
            | (Raise IntegrityError, t') =>
                (Ok (mkResponse integrity_error_content HTTP_400_BAD_REQUEST), t')
            | (Raise e, t') => (Raise e, t')
            end
        end
    end).
End Post.

End LabelUploadAPI.


(** ** ApproveLabelsAPI *)

Module ApproveLabelsAPI.

(** The values the field [approved] of a request can hold. *)
Inductive PyValue : Type :=
  | PyNone
  | PyBool (b : bool)
  | PyInt (n : Z)
  | PyStr (s : string).

(** The truth value Python gives to a value in a condition. *)
Definition truthy (v : PyValue) : bool :=
  match v with
  | PyNone => false
  | PyBool b => b
  | PyInt n => negb (n =? 0)
  | PyStr s => negb (String.eqb s "")
  end.

(** The database together with the column [annotations_approved_by] of
    the document table: the id of the approving user by document id, no
    entry for NULL. *)
Record Store : Type := mkStore {
  store_db : DB;
  annotations_approved_by : gmap Z Z
}.

(** [get_object_or_404(Document, pk=...)]. *)
Definition get_document_or_404 (db : DB) (pk : Z) : Result Document :=
  match List.find (λ d, doc_id d =? pk) (documents db) with
  | Some d => Ok d
  | None => Raise Http404
  end.

(** The answer is the approver the document has after the request. *)
Definition post (request_user : User) (request_data : gmap string PyValue)
    (doc_id : Z) (s : Store) : Result (option Z) * Store :=
  let approved := default (PyBool true) (request_data !! "approved") in
  match get_document_or_404 (store_db s) doc_id with
  | Raise e => (Raise e, s)
  | Ok document =>
      let approver := if truthy approved then Some (user_id request_user) else None in
      (* document.annotations_approved_by = approver; document.save() *)
      let column :=
        match approver with
        | Some u => <[Models.doc_id document := u]> (annotations_approved_by s)
        | None => delete (Models.doc_id document) (annotations_approved_by s)
        end in
      (Ok approver, mkStore (store_db s) column)
  end.

End ApproveLabelsAPI.

(** ** Vocabulary of the specification *)

Module Spec.

(** Document [d] has at least one annotation among [rows] that satisfies [q]. *)
Definition annotated_by (rows : list Annotation) (q : Annotation → bool)
    (d : Document) : bool :=
  existsb (λ a, (ann_document a =? doc_id d) && q a) rows.

(** The annotation was authored by the user named [name]. *)
Definition authored_by (db : DB) (name : string) : Annotation → bool :=
  λ a, bool_decide (user__username db a = Some name).

(** An annotation qualifies for the done count: any annotation in a
    collaborative project, the requesting user's own otherwise. *)
Definition qualifies (project : Project) (request_user : User) : Annotation → bool :=
  λ a, collaborative_annotation project || (ann_user a =? user_id request_user).

(** The number of documents among [docs] that satisfy [p]. *)
Definition count_documents (p : Document → bool) (docs : list Document) : Z :=
  Z.of_nat (length (List.filter p docs)).

Definition with_collaborative (project : Project) (flag : bool) : Project :=
  mkProject (project_id project) (project_type project) flag
            (single_class_classification project) (randomize_document_order project).


(** The database after one more document has been inserted. *)
Definition add_document (db : DB) (d : Document) : DB :=
  mkDB (users db) (projects db) (documents db ++ [d]) (labels db)
       (doc_annotations db) (seq_annotations db) (seq2seq_annotations db).


(** The scope of the single-class guard: the whole document in a
    collaborative project, the pair (document, user) otherwise. *)
Definition in_scope (project : Project) (doc_id : Z) (user : User) : Annotation → bool :=
  λ a, (ann_document a =? doc_id)
       && (collaborative_annotation project || (ann_user a =? user_id user)).


(** Row [x] holds the name or the shortkey of [label] in [project]. *)
Definition same_name_or_shortkey (project : Project) (label : LabelUploadAPI.LabelData)
    (x : Label) : Prop :=
  label_project x = project_id project
  ∧ (label_text x = LabelUploadAPI.data_text label
     ∨ label_shortkey x = LabelUploadAPI.data_shortkey label).

(** [label] duplicates a row among [present], or an earlier entry of its
    own batch. *)
Definition duplicates (project : Project) (label : LabelUploadAPI.LabelData)
    (present : list Label) (before : list LabelUploadAPI.LabelData) : Prop :=
  (∃ x, x ∈ present ∧ same_name_or_shortkey project label x)
  ∨ (∃ l0, l0 ∈ before
       ∧ (LabelUploadAPI.data_text l0 = LabelUploadAPI.data_text label
          ∨ LabelUploadAPI.data_shortkey l0 = LabelUploadAPI.data_shortkey label)).

(** The closed set of import formats. *)
Definition import_formats : list string :=
  ["plain"; "csv"; "json"; "conll"; "excel"; "audio"].

End Spec.

(** ** Sample data *)

Module Sample.

Definition alice : User := mkUser 1 "A".
Definition bob : User := mkUser 2 "B".

Definition reviews : Project :=
  mkProject 10 TextClassificationProject false true true.

Definition entities : Project :=
  mkProject 11 SequenceLabelingProject true false false.

(** Three documents in project 10, the first two annotated by [alice],
    and one document with a span annotation in project 11. *)
Definition db : DB :=
  mkDB [alice; bob] [reviews; entities]
       [mkDocument 1 10 "first"; mkDocument 2 10 "second"; mkDocument 3 10 "third";
        mkDocument 4 11 "Barack Obama was here"]
       [mkLabel 5 11 "PERSON" "p"; mkLabel 6 10 "positive" "y"]
       [mkAnnotation 1 1 1 (Classification 6); mkAnnotation 2 2 1 (Classification 6)]
       [mkAnnotation 1 4 2 (Span 5 0 15)]
       [].

Definition fresh_document : Document := mkDocument 7 10 "fourth".

Definition no_label_stats (db : DB) (model : AnnotationClass) (project : Project)
    : gmap string Z * gmap string Z := (∅, ∅).

(** A serializer that accepts every request as a classification with
    label 6. *)
Definition accept_any (db : DB) (model : AnnotationClass) (request_data : gmap string JSON)
    : Result AnnotationBody := Ok (Classification 6).

(** A parser that reads every line of the file and a storage that
    creates one document per line. *)
Definition read_lines (parser : Parser) (file : list string) (w : World)
    : Result (list string) * World :=
  (Ok file, mkWorld (world_db w) (file_position w + length file)).

Definition store_lines (project : Project) (lines : list string) (user : User) (w : World)
    : Result unit * World :=
  (Ok tt,
   mkWorld (foldl (λ db line,
                     Spec.add_document db
                       (mkDocument (AnnotationList.next_id (doc_id <$> documents db))
                                   (project_id project) line))
                  (world_db w) lines)
           (file_position w)).

(** A CSV row that shows the text of the document only. *)
Definition text_row (d : Document) (annotations : list Annotation) (labels : list Label)
    : JSON := JStr (doc_text d).

(** The plain JSON export of project 10. *)
Definition reviews_export : list JSON :=
  [JObj [("text", JStr "first");
         ("annotations", JArr [JObj [("label", JInt 6); ("user", JInt 1)]])];
   JObj [("text", JStr "second");
         ("annotations", JArr [JObj [("label", JInt 6); ("user", JInt 1)]])];
   JObj [("text", JStr "third"); ("annotations", JArr [])]].

(** A label serializer that accepts every entry, and a batch of three
    labels whose second entry has the name of label 6 of project 10. *)
Definition accept_label (label : LabelUploadAPI.LabelData) : bool := true.

Definition negative : LabelUploadAPI.LabelData := LabelUploadAPI.mkLabelData "negative" "n".
Definition positive : LabelUploadAPI.LabelData := LabelUploadAPI.mkLabelData "positive" "q".
Definition neutral : LabelUploadAPI.LabelData := LabelUploadAPI.mkLabelData "neutral" "u".


(** A database that returns them as the table holds them. *)
Definition table_order (rows : list Document) : list Document := rows.



(** Label statistics that are not empty for project 10. *)
Definition label_stats (db : DB) (model : AnnotationClass) (project : Project)
    : gmap string Z * gmap string Z :=
  if project_id project =? 10
  then ({["positive" := 2]}, {["A" := 2]})
  else (∅, ∅).

End Sample.

(** ** Auxiliary definitions of the proofs *)

(** The document ids of the rows of user [u]. *)
Definition docs_of_user (u : string) (rows : list (string * Z)) : list Z :=
  snd <$> List.filter (λ r, String.eqb r.1 u) rows.

(** Ascending order of a key. *)
Definition le_key {A : Type} (key : A → Z) (x y : A) : Prop := key x ≤ key y.

(** The key the document list is ordered by. *)
Definition listing_key (project : Project) (request_user : User) (d : Document) : Z :=
  if randomize_document_order project
  then Z.rem (doc_id d) (user_id request_user)
  else doc_id d.

(** The format token of each parser. *)
Definition format_name (parser : Parser) : string :=
  match parser with
  | PlainTextParser => "plain"
  | CSVParser => "csv"
  | JSONParser => "json"
  | CoNLLParser => "conll"
  | ExcelParser => "excel"
  | AudioParser => "audio"
  end.

(** The export formats. *)
Definition export_formats : list string := ["csv"; "json"; "json1"].

(** The uniqueness constraints hold in a label table: no row conflicts
    with a later row (and so, the conflict being symmetric, with any
    other row). *)
Definition labels_unique (ls : list Label) : Prop :=
  StronglySorted (λ x y, LabelUploadAPI.conflicts x y = false) ls.

(** No row among [present] has the name or the shortkey of [label]. *)
Definition fresh_for (project : Project) (present : list Label)
    (label : LabelUploadAPI.LabelData) : Prop :=
  ∀ x, x ∈ present → ¬ Spec.same_name_or_shortkey project label x.

(** The entries of a batch differ pairwise in name and in shortkey. *)
Definition distinct_entries (batch : list LabelUploadAPI.LabelData) : Prop :=
  StronglySorted (λ l1 l2, LabelUploadAPI.data_text l1 ≠ LabelUploadAPI.data_text l2
                           ∧ LabelUploadAPI.data_shortkey l1
                             ≠ LabelUploadAPI.data_shortkey l2) batch.

(** What a label row stores of an uploaded entry. *)
Definition row_fields (x : Label) : Z * string * string :=
  (label_project x, label_text x, label_shortkey x).

Definition entry_fields (project : Project) (label : LabelUploadAPI.LabelData)
    : Z * string * string :=
  (project_id project, LabelUploadAPI.data_text label, LabelUploadAPI.data_shortkey label).

(** A label serializer that rejects the name "neutral". *)
Definition reject_neutral (label : LabelUploadAPI.LabelData) : bool :=
  negb (String.eqb (LabelUploadAPI.data_text label) "neutral").

#[global] Instance AnnotationClass_eq_dec : EqDecision AnnotationClass.
Proof. solve_decision. Defined.

(** * Proofs *)

(** ** Lists and querysets *)

Section ListFacts.
Context {A : Type}.

Lemma elem_of_List_filter (f : A → bool) (l : list A) (x : A) :
  x ∈ List.filter f l ↔ x ∈ l ∧ f x = true.
Proof. rewrite !list_elem_of_In. apply filter_In. Qed.

Lemma List_filter_filter (f g : A → bool) (l : list A) :
  List.filter g (List.filter f l) = List.filter (λ x, f x && g x) l.
Proof.
  induction l as [|x l IH]; simpl; [done|].
  destruct (f x); simpl; [|done]. destruct (g x); by rewrite IH.
Qed.

Lemma NoDup_fmap_List_filter {B : Type} (g : A → B) (f : A → bool) (l : list A) :
  NoDup (g <$> l) → NoDup (g <$> List.filter f l).
Proof.
  induction l as [|x l IH]; simpl; [done|].
  intros Hnd. apply NoDup_cons in Hnd as [Hx Hl].
  destruct (f x); simpl; [|by apply IH].
  apply NoDup_cons. split; [|by apply IH].
  intros Hin. apply Hx.
  apply list_elem_of_fmap in Hin as (y & -> & Hy).
  apply list_elem_of_fmap. exists y. split; [done|].
  by apply elem_of_List_filter in Hy as [? _].
Qed.
End ListFacts.

(** Counting distinct document ids over annotation rows restricted to
    [docs] is counting the documents of [docs] that have such a row. *)
Lemma distinct_documents_count (rows : list Annotation) (docs : list Document)
    (q : Annotation → bool) :
  NoDup (doc_id <$> docs) →
  size (list_to_set (ann_document <$>
          List.filter (λ a, Q_document_id__in docs a && q a) rows) : gset Z)
  = length (List.filter (Spec.annotated_by rows q) docs).
Proof.
  intros Hnd.
  rewrite <- (length_fmap doc_id (List.filter _ docs)).
  rewrite <- (size_list_to_set (C:=gset Z)) by by apply NoDup_fmap_List_filter.
  f_equal. apply set_eq. intros x.
  rewrite !elem_of_list_to_set, !list_elem_of_fmap. split.
  - intros (a & -> & Ha). apply elem_of_List_filter in Ha as [Ha Hq].
    apply andb_true_iff in Hq as [Hin Hq].
    apply bool_decide_eq_true in Hin.
    apply list_elem_of_fmap in Hin as (d & Hd & Hdin).
    exists d. split; [done|]. apply elem_of_List_filter. split; [done|].
    apply existsb_exists. exists a. split; [by apply list_elem_of_In|].
    apply andb_true_iff. split; [lia|done].
  - intros (d & -> & Hd). apply elem_of_List_filter in Hd as [Hd Hex].
    apply existsb_exists in Hex as (a & Ha & Hq).
    apply andb_true_iff in Hq as [Heq Hq]. apply Z.eqb_eq in Heq.
    exists a. split; [done|]. apply elem_of_List_filter.
    split; [by apply list_elem_of_In|].
    apply andb_true_iff. split; [|done].
    apply bool_decide_eq_true. rewrite Heq. apply list_elem_of_fmap. eauto.
Qed.

(** ** The per-user tally *)

Lemma docs_of_user_cons (u k : string) (v : Z) (rows : list (string * Z)) :
  docs_of_user u ((k, v) :: rows) =
    if String.eqb k u then v :: docs_of_user u rows else docs_of_user u rows.
Proof. unfold docs_of_user. simpl. by destruct (String.eqb k u). Qed.

Lemma foldl_add_row_lookup (rows : list (string * Z)) (m0 : gmap string (gset Z))
    (u : string) :
  foldl StatisticsAPI.add_row m0 rows !! u =
    if decide (docs_of_user u rows = [])
    then m0 !! u
    else Some (default ∅ (m0 !! u) ∪ list_to_set (docs_of_user u rows)).
Proof.
  revert m0. induction rows as [|[k v] rows IH]; intros m0; [done|].
  cbn [foldl]. rewrite IH, docs_of_user_cons. unfold StatisticsAPI.add_row. cbn [fst snd].
  destruct (String.eqb_spec k u) as [->|Hne].
  - rewrite lookup_insert_eq. cbn [default].
    rewrite (decide_False (P := _ :: _ = [])) by done.
    case_decide as Hrest.
    + rewrite Hrest. f_equal. set_solver.
    + f_equal. set_solver.
  - by rewrite lookup_insert_ne.
Qed.

Lemma docs_of_user_values (db : DB) (u : string) (rows : list Annotation) :
  docs_of_user u (StatisticsAPI.values_username_document db rows)
  = ann_document <$> List.filter (Spec.authored_by db u) rows.
Proof.
  unfold StatisticsAPI.values_username_document, Spec.authored_by.
  induction rows as [|a rows IH]; [done|].
  cbn [omap list_omap List.filter].
  destruct (user__username db a) as [name|] eqn:Hname; cbn [mbind option_bind].
  - rewrite docs_of_user_cons.
    destruct (String.eqb_spec name u) as [->|Hne].
    + rewrite bool_decide_eq_true_2 by done. rewrite fmap_cons. by rewrite IH.
    + rewrite bool_decide_eq_false_2 by congruence. done.
  - rewrite bool_decide_eq_false_2 by done. done.
Qed.

(** The value of the tally at every user name. *)
Lemma user_completion_lookup (db : DB) (model : AnnotationClass)
    (docs : list Document) (u : string) :
  NoDup (doc_id <$> docs) →
  StatisticsAPI._get_user_completion_data db model (Q_document_id__in docs) !! u =
    let n := Spec.count_documents
               (Spec.annotated_by (objects db model) (Spec.authored_by db u)) docs in
    if n =? 0 then None else Some n.
Proof.
  intros Hnd. unfold StatisticsAPI._get_user_completion_data, Spec.count_documents.
  rewrite lookup_fmap, foldl_add_row_lookup, docs_of_user_values, List_filter_filter.
  rewrite <- (distinct_documents_count _ _ _ Hnd).
  rewrite lookup_empty. simpl.
  destruct (List.filter _ (objects db model)) as [|a rows] eqn:Hrows; simpl.
  - done.
  - rewrite (left_id_L ∅ (∪)).
    set (docs_done := ({[ann_document a]} ∪ _ : gset Z)).
    assert (size docs_done ≠ 0%nat) as Hpos.
    { apply size_non_empty_iff. subst docs_done. set_solver. }
    destruct (Z.eqb_spec (Z.of_nat (size docs_done)) 0); [lia|done].
Qed.

Lemma project_documents_NoDup (db : DB) (project : Project) :
  NoDup (doc_id <$> documents db) → NoDup (doc_id <$> project_documents db project).
Proof. apply NoDup_fmap_List_filter. Qed.

Lemma progress_user (db : DB) (request_user : User) (project : Project) :
  StatisticsAPI.progress db request_user project !! "user" =
    Some (VCounts (StatisticsAPI._get_user_completion_data db
                     (get_annotation_class project)
                     (Q_document_id__in (project_documents db project)))).
Proof.
  unfold StatisticsAPI.progress.
  rewrite lookup_insert_ne by done. rewrite lookup_insert_ne by done.
  by rewrite lookup_insert_eq.
Qed.

(** C1. The per-user map of the progress computation binds every user
    name [u] to the number of documents of the project that have at least
    one annotation authored by [u], counted over all annotations of the
    project (a name with no such document has no entry); the map is the
    same whatever the project's collaborative_annotation flag and whoever
    the requesting user is. *)
Theorem C1_per_user_tally_is_global (db : DB) (request_user : User) (project : Project) :
  NoDup (doc_id <$> documents db) →
  ∃ user_data : gmap string Z,
    StatisticsAPI.progress db request_user project !! "user" = Some (VCounts user_data)
    ∧ (∀ u : string,
         let n := Spec.count_documents
                    (Spec.annotated_by (objects db (get_annotation_class project))
                                       (Spec.authored_by db u))
                    (project_documents db project) in
         user_data !! u = if n =? 0 then None else Some n)
    ∧ (∀ (other_user : User) (flag : bool),
         StatisticsAPI.progress db other_user (Spec.with_collaborative project flag) !! "user"
         = Some (VCounts user_data)).
Proof.
  intros Hnd. eexists. split; [apply progress_user|]. split.
  - intros u. apply user_completion_lookup. by apply project_documents_NoDup.
  - intros other_user flag. by rewrite progress_user.
Qed.

Lemma C1_per_user_tally_witness :
  NoDup (doc_id <$> documents Sample.db)
  ∧ ∃ user_data : gmap string Z,
      StatisticsAPI.progress Sample.db Sample.bob Sample.reviews !! "user"
        = Some (VCounts user_data)
      ∧ user_data !! "A" = Some 2
      ∧ user_data !! "B" = None.
Proof.
  assert (NoDup (doc_id <$> documents Sample.db)) as Hnd by compute_done.
  split; [exact Hnd|].
  destruct (C1_per_user_tally_is_global Sample.db Sample.bob Sample.reviews Hnd)
    as (user_data & Huser & Hcount & _).
  exists user_data. split; [exact Huser|].
  split; [exact (Hcount "A")|exact (Hcount "B")].
Defined.

(** ** Total and remaining *)

Lemma progress_total (db : DB) (request_user : User) (project : Project) :
  StatisticsAPI.progress db request_user project !! "total" =
    Some (VInt (Z.of_nat (length (project_documents db project)))).
Proof. unfold StatisticsAPI.progress. by rewrite lookup_insert_eq. Qed.

(** The filter that [progress] ends up with selects the qualifying
    annotations of the project's documents. *)
Lemma done_filter_qualifies (project : Project) (request_user : User)
    (docs : list Document) (rows : list Annotation) :
  List.filter (if negb (collaborative_annotation project)
               then Q_and (Q_document_id__in docs) (Q_user_id request_user)
               else Q_document_id__in docs) rows
  = List.filter (λ a, Q_document_id__in docs a && Spec.qualifies project request_user a) rows.
Proof.
  apply List.filter_ext. intros a. unfold Spec.qualifies, Q_and, Q_user_id.
  destruct (collaborative_annotation project); simpl; [|done].
  by rewrite andb_true_r.
Qed.

Lemma progress_remaining (db : DB) (request_user : User) (project : Project) :
  NoDup (doc_id <$> documents db) →
  StatisticsAPI.progress db request_user project !! "remaining" =
    Some (VInt (Z.of_nat (length (project_documents db project))
                - Spec.count_documents
                    (Spec.annotated_by (objects db (get_annotation_class project))
                                       (Spec.qualifies project request_user))
                    (project_documents db project))).
Proof.
  intros Hnd. unfold StatisticsAPI.progress.
  rewrite lookup_insert_ne by done. rewrite lookup_insert_eq.
  unfold count_distinct_document, Spec.count_documents.
  rewrite done_filter_qualifies.
  by rewrite distinct_documents_count by by apply project_documents_NoDup.
Qed.

(** Inserting a document that no annotation row points to. *)
Lemma project_documents_add (db : DB) (project : Project) (d : Document) :
  doc_project d = project_id project →
  project_documents (Spec.add_document db d) project = project_documents db project ++ [d].
Proof.
  intros Hp. unfold project_documents, Spec.add_document. cbn [documents].
  rewrite List.filter_app. cbn [List.filter]. by rewrite Hp, Z.eqb_refl.
Qed.

Lemma count_documents_add_unannotated (rows : list Annotation) (q : Annotation → bool)
    (docs : list Document) (d : Document) :
  (∀ a, a ∈ rows → ann_document a ≠ doc_id d) →
  Spec.count_documents (Spec.annotated_by rows q) (docs ++ [d])
  = Spec.count_documents (Spec.annotated_by rows q) docs.
Proof.
  intros Hnone. unfold Spec.count_documents. rewrite List.filter_app. cbn [List.filter].
  assert (Spec.annotated_by rows q d = false) as ->.
  { apply not_true_is_false. intros Hex.
    apply existsb_exists in Hex as (a & Ha & Hq).
    apply andb_true_iff in Hq as [Heq _]. apply Z.eqb_eq in Heq.
    by apply (Hnone a); [apply list_elem_of_In|]. }
  by rewrite app_nil_r.
Qed.

Lemma add_document_NoDup (db : DB) (d : Document) :
  NoDup (doc_id <$> documents db) →
  doc_id d ∉ doc_id <$> documents db →
  NoDup (doc_id <$> documents (Spec.add_document db d)).
Proof.
  intros Hnd Hfresh. unfold Spec.add_document. cbn [documents].
  rewrite fmap_app. apply NoDup_app. split; [done|]. split.
  - intros x Hx Hd. apply list_elem_of_singleton in Hd. by subst.
  - apply NoDup_singleton.
Qed.

(** C2. The progress computation returns total = the number of documents
    of the project and remaining = total minus the number of documents
    with at least one qualifying annotation (any annotation when the
    project is collaborative, the requesting user's own otherwise); one
    more document with zero annotations adds one to total and to
    remaining, so it is not counted as done, and leaves the per-user map
    as it is. *)
Theorem C2_total_and_remaining (db : DB) (request_user : User) (project : Project) :
  NoDup (doc_id <$> documents db) →
  let docs := project_documents db project in
  let rows := objects db (get_annotation_class project) in
  let total := Z.of_nat (length docs) in
  let done := Spec.count_documents
                (Spec.annotated_by rows (Spec.qualifies project request_user)) docs in
  StatisticsAPI.progress db request_user project !! "total" = Some (VInt total)
  ∧ StatisticsAPI.progress db request_user project !! "remaining" = Some (VInt (total - done))
  ∧ (∀ d : Document,
       doc_project d = project_id project →
       doc_id d ∉ doc_id <$> documents db →
       (∀ a, a ∈ rows → ann_document a ≠ doc_id d) →
       let progress' := StatisticsAPI.progress (Spec.add_document db d) request_user project in
       progress' !! "total" = Some (VInt (total + 1))
       ∧ progress' !! "remaining" = Some (VInt (total + 1 - done))
       ∧ progress' !! "user" = StatisticsAPI.progress db request_user project !! "user").
Proof.
  intros Hnd docs rows total done.
  split; [apply progress_total|]. split; [by apply progress_remaining|].
  intros d Hproject Hfresh Hnone progress'. subst progress'.
  pose proof (add_document_NoDup db d Hnd Hfresh) as Hnd'.
  rewrite progress_total, progress_remaining by done.
  rewrite !progress_user, project_documents_add by done.
  change (objects (Spec.add_document db d) (get_annotation_class project)) with rows.
  rewrite count_documents_add_unannotated by done.
  rewrite length_app. cbn [length].
  replace (Z.of_nat (length (project_documents db project) + 1)) with (total + 1)
    by (subst total docs; lia).
  split; [done|]. split; [done|].
  do 2 f_equal. apply map_eq. intros u.
  rewrite <- project_documents_add by done.
  rewrite !user_completion_lookup by by apply project_documents_NoDup.
  cbn zeta. rewrite project_documents_add by done.
  change (objects (Spec.add_document db d) (get_annotation_class project)) with rows.
  by rewrite count_documents_add_unannotated.
Qed.

Lemma C2_total_and_remaining_witness :
  NoDup (doc_id <$> documents Sample.db)
  ∧ StatisticsAPI.progress Sample.db Sample.alice Sample.reviews !! "total" = Some (VInt 3)
  ∧ StatisticsAPI.progress Sample.db Sample.alice Sample.reviews !! "remaining"
      = Some (VInt 1)
  ∧ StatisticsAPI.progress (Spec.add_document Sample.db Sample.fresh_document)
        Sample.alice Sample.reviews !! "total" = Some (VInt 4)
  ∧ StatisticsAPI.progress (Spec.add_document Sample.db Sample.fresh_document)
        Sample.alice Sample.reviews !! "remaining" = Some (VInt 2).
Proof.
  assert (NoDup (doc_id <$> documents Sample.db)) as Hnd by compute_done.
  split; [exact Hnd|].
  destruct (C2_total_and_remaining Sample.db Sample.alice Sample.reviews Hnd)
    as (Htotal & Hremaining & Hadd).
  split; [exact Htotal|]. split; [exact Hremaining|].
  assert (doc_id Sample.fresh_document ∉ doc_id <$> documents Sample.db) as Hfresh
    by compute_done.
  assert (∀ a, a ∈ objects Sample.db (get_annotation_class Sample.reviews) →
               ann_document a ≠ doc_id Sample.fresh_document) as Hnone.
  { intros a Ha. cbn in Ha.
    repeat (apply elem_of_cons in Ha as [->|Ha]; [done|]).
    by apply elem_of_nil in Ha. }
  destruct (Hadd Sample.fresh_document eq_refl Hfresh Hnone) as (Htotal' & Hremaining' & _).
  split; [exact Htotal'|exact Hremaining'].
Defined.

(** The scenario of the specification: three documents, the first two
    annotated by A, the third one not, in a project that is not
    collaborative. *)
Example progress_scenario :
  StatisticsAPI.progress Sample.db Sample.alice Sample.reviews
  = <["total" := VInt 3]> (<["remaining" := VInt 1]>
      (<["user" := VCounts {["A" := 2]}]> ∅)).
Proof. by vm_compute. Qed.

(** ** The statistics endpoint *)

Lemma progress_dom (db : DB) (request_user : User) (project : Project) :
  dom (StatisticsAPI.progress db request_user project)
  = ({["total"; "remaining"; "user"]} : gset string).
Proof.
  unfold StatisticsAPI.progress. rewrite !dom_insert_L, dom_empty_L. set_solver.
Qed.

Lemma progress_lookup_None (db : DB) (request_user : User) (project : Project) (k : string) :
  k ≠ "total" → k ≠ "remaining" → k ≠ "user" →
  StatisticsAPI.progress db request_user project !! k = None.
Proof.
  intros. apply not_elem_of_dom. rewrite progress_dom. set_solver.
Qed.

(** C4, at the request [include=user_label]: neither statistics branch
    runs, and the response is empty; the key user_label is not returned. *)
Theorem C4_user_label_alone_yields_empty_response
    (get_label_per_data : DB → AnnotationClass → Project → gmap string Z * gmap string Z)
    (db : DB) (request_user : User) (project_id : Z) :
  StatisticsAPI.get get_label_per_data db request_user ["user_label"] project_id
  = (_ ← get_object_or_404 db project_id; Ok ∅).
Proof.
  unfold StatisticsAPI.get.
  destruct (get_object_or_404 db project_id) as [project|e]; [|done].
  cbn [mbind result_bind].
  rewrite !(bool_decide_eq_false_2 (list_to_set ["user_label"] = ∅)) by set_solver.
  rewrite (bool_decide_eq_false_2 ("label" ∈ _)) by set_solver.
  rewrite (bool_decide_eq_false_2 ("total" ∈ _)) by set_solver.
  rewrite (bool_decide_eq_false_2 ("remaining" ∈ _)) by set_solver.
  rewrite (bool_decide_eq_false_2 ("user" ∈ _)) by set_solver.
  rewrite bool_decide_eq_true_2 by set_solver.
  cbn [orb]. by rewrite map_filter_empty.
Qed.

(** The same request on the sample project. *)
Example user_label_alone_on_sample :
  StatisticsAPI.get Sample.no_label_stats Sample.db Sample.alice ["user_label"] 10 = Ok ∅.
Proof. by vm_compute. Qed.

(** Filtering by the requested keys leaves exactly the requested keys when
    all of them were computed. *)
Lemma dom_filter_requested (response : gmap string Value) (include : gset string) :
  include ⊆ dom response →
  dom (filter (λ kv : string * Value, kv.1 ∈ include) response) = include.
Proof.
  intros Hsub. apply dom_filter_L. intros k. cbn [fst]. split.
  - intros Hk. destruct (proj1 (elem_of_dom response k) (Hsub k Hk)) as [v Hv]. eauto.
  - by intros (v & _ & Hk).
Qed.

(** Where the selection does work: for a non-empty set of the five keys
    that asks for user_label only together with label, the response has
    exactly the requested keys. *)
Lemma get_returns_requested_keys
    (get_label_per_data : DB → AnnotationClass → Project → gmap string Z * gmap string Z)
    (db : DB) (request_user : User) (GET_include : list string) (project_id : Z)
    (project : Project) :
  get_object_or_404 db project_id = Ok project →
  GET_include ≠ [] →
  (list_to_set GET_include : gset string)
    ⊆ {["label"; "user_label"; "total"; "remaining"; "user"]} →
  ("user_label" ∈ GET_include → "label" ∈ GET_include) →
  ∃ response : gmap string Value,
    StatisticsAPI.get get_label_per_data db request_user GET_include project_id = Ok response
    ∧ dom response = list_to_set GET_include.
Proof.
  intros Hproject Hne Hsub Hlabel. unfold StatisticsAPI.get.
  rewrite Hproject. cbn [mbind result_bind].
  set (include := list_to_set GET_include : gset string) in *.
  assert (include ≠ ∅) as Hinc.
  { destruct GET_include as [|k ks]; [done|]. subst include. set_solver. }
  assert ("user_label" ∈ include → "label" ∈ include) as Hlabel'.
  { subst include. by rewrite !elem_of_list_to_set. }
  rewrite !(bool_decide_eq_false_2 (include = ∅)) by done.
  rewrite (bool_decide_eq_true_2 (include ≠ ∅)) by done.
  cbn [orb].
  destruct (StatisticsAPI.label_per_data _ db project) as [label_count user_count].
  eexists. split; [reflexivity|]. apply dom_filter_requested.
  unfold StatisticsAPI.update.
  repeat case_bool_decide; cbn [orb];
    rewrite ?dom_union_L, ?progress_dom, ?dom_insert_L, ?dom_empty_L;
    set_solver.
Qed.

(** An include parameter with an empty value is the list with one empty
    string: it is a non-empty selection and the response is empty. *)
Remark get_with_empty_string_include
    (get_label_per_data : DB → AnnotationClass → Project → gmap string Z * gmap string Z)
    (db : DB) (request_user : User) (project_id : Z) :
  StatisticsAPI.get get_label_per_data db request_user [""] project_id
  = (_ ← get_object_or_404 db project_id; Ok ∅).
Proof.
  unfold StatisticsAPI.get.
  destruct (get_object_or_404 db project_id) as [project|e]; [|done].
  cbn [mbind result_bind].
  rewrite !(bool_decide_eq_false_2 (list_to_set [""] = ∅)) by set_solver.
  rewrite (bool_decide_eq_false_2 ("label" ∈ _)) by set_solver.
  rewrite (bool_decide_eq_false_2 ("total" ∈ _)) by set_solver.
  rewrite (bool_decide_eq_false_2 ("remaining" ∈ _)) by set_solver.
  rewrite (bool_decide_eq_false_2 ("user" ∈ _)) by set_solver.
  rewrite bool_decide_eq_true_2 by set_solver.
  cbn [orb]. by rewrite map_filter_empty.
Qed.

(** C9.  A statistics request that carries no include value (the
    parameter is absent) is answered with exactly the five keys label,
    user_label, total, remaining and user: label and user_label are bound
    to the two results of get_label_per_data for the project, total to
    the number of its documents, remaining and user to the figures of the
    progress computation.  A request whose include parameter is present
    with an empty value carries the one value "", which is a non-empty
    selection of a key that does not exist: it is answered with the empty
    response. *)
Theorem C9_absent_include_returns_all_keys
    (get_label_per_data : DB → AnnotationClass → Project → gmap string Z * gmap string Z)
    (db : DB) (request_user : User) (project_id : Z) (project : Project) :
  get_object_or_404 db project_id = Ok project →
  (∃ response : gmap string Value,
     StatisticsAPI.get get_label_per_data db request_user [] project_id = Ok response
     ∧ dom response = ({["label"; "user_label"; "total"; "remaining"; "user"]} : gset string)
     ∧ response !! "label"
         = Some (VCounts (get_label_per_data db (get_annotation_class project) project).1)
     ∧ response !! "user_label"
         = Some (VCounts (get_label_per_data db (get_annotation_class project) project).2)
     ∧ response !! "total"
         = Some (VInt (Z.of_nat (length (project_documents db project))))
     ∧ response !! "remaining" = StatisticsAPI.progress db request_user project !! "remaining"
     ∧ response !! "user" = StatisticsAPI.progress db request_user project !! "user"
     ∧ is_Some (response !! "remaining") ∧ is_Some (response !! "user")
     ∧ (NoDup (doc_id <$> documents db) →
        response !! "remaining"
          = Some (VInt (Z.of_nat (length (project_documents db project))
                        - Spec.count_documents
                            (Spec.annotated_by (objects db (get_annotation_class project))
                               (Spec.qualifies project request_user))
                            (project_documents db project)))
        ∧ ∃ user_data : gmap string Z,
            response !! "user" = Some (VCounts user_data)
            ∧ ∀ u : string,
                let n := Spec.count_documents
                           (Spec.annotated_by (objects db (get_annotation_class project))
                              (Spec.authored_by db u))
                           (project_documents db project) in
                user_data !! u = if n =? 0 then None else Some n))
  ∧ StatisticsAPI.get get_label_per_data db request_user [""] project_id = Ok ∅.
Proof.
  intros Hproject. split; [|by rewrite get_with_empty_string_include, Hproject].
  unfold StatisticsAPI.get. rewrite Hproject. cbn [mbind result_bind].
  cbn [list_to_set foldr]. rewrite !(bool_decide_eq_true_2 (∅ = ∅)) by done.
  rewrite (bool_decide_eq_false_2 (∅ ≠ ∅)) by (intros Hne; by apply Hne).
  cbn [orb]. unfold StatisticsAPI.label_per_data.
  destruct (get_label_per_data db (get_annotation_class project) project)
    as [label_count user_count].
  eexists. split; [reflexivity|]. unfold StatisticsAPI.update. cbn [fst snd].
  split; [rewrite dom_union_L, progress_dom, !dom_insert_L, dom_empty_L; set_solver|].
  assert (∀ k, is_Some (StatisticsAPI.progress db request_user project !! k) →
               (StatisticsAPI.progress db request_user project
                  ∪ <["user_label" := VCounts user_count]>
                      (<["label" := VCounts label_count]> ∅)) !! k
               = StatisticsAPI.progress db request_user project !! k) as Hleft.
  { intros k [v Hv]. rewrite Hv. by apply lookup_union_Some_l. }
  assert (∀ k, is_Some (StatisticsAPI.progress db request_user project !! k) ↔
               k ∈ ({["total"; "remaining"; "user"]} : gset string)) as Hdom.
  { intros k. by rewrite <- elem_of_dom, progress_dom. }
  assert (is_Some (StatisticsAPI.progress db request_user project !! "total")) as Htotal
    by (apply Hdom; set_solver).
  assert (is_Some (StatisticsAPI.progress db request_user project !! "remaining"))
    as Hremaining by (apply Hdom; set_solver).
  assert (is_Some (StatisticsAPI.progress db request_user project !! "user")) as Huser
    by (apply Hdom; set_solver).
  split.
  { rewrite lookup_union_r by by apply progress_lookup_None.
    rewrite lookup_insert_ne by done. by rewrite lookup_insert_eq. }
  split.
  { rewrite lookup_union_r by by apply progress_lookup_None.
    by rewrite lookup_insert_eq. }
  split; [by rewrite Hleft, progress_total|].
  split; [by apply Hleft|]. split; [by apply Hleft|].
  split; [by rewrite Hleft|]. split; [by rewrite Hleft|].
  intros Hnd. rewrite !Hleft by done. split; [by apply progress_remaining|].
  eexists. split; [apply progress_user|].
  intros u. apply user_completion_lookup. by apply project_documents_NoDup.
Qed.

Lemma C9_absent_include_witness :
  get_object_or_404 Sample.db 10 = Ok Sample.reviews
  ∧ (∃ response : gmap string Value,
       StatisticsAPI.get Sample.label_stats Sample.db Sample.alice [] 10 = Ok response
       ∧ dom response = ({["label"; "user_label"; "total"; "remaining"; "user"]} : gset string)
       ∧ response !! "label" = Some (VCounts {["positive" := 2]})
       ∧ response !! "user_label" = Some (VCounts {["A" := 2]})
       ∧ response !! "total" = Some (VInt 3)
       ∧ response !! "remaining" = Some (VInt 1)
       ∧ response !! "user" = Some (VCounts {["A" := 2]}))
  ∧ StatisticsAPI.get Sample.label_stats Sample.db Sample.alice [""] 10 = Ok ∅.
Proof.
  split; [reflexivity|].
  destruct (C9_absent_include_returns_all_keys Sample.label_stats Sample.db Sample.alice
              10 Sample.reviews eq_refl)
    as ((response & Hget & Hdom & Hlabel & Huser_label & Htotal & Hremaining & Huser & _)
        & Hempty).
  split; [|exact Hempty].
  exists response. split; [exact Hget|]. split; [exact Hdom|].
  split; [exact Hlabel|]. split; [exact Huser_label|]. split; [exact Htotal|].
  split; [by rewrite Hremaining; vm_compute|by rewrite Huser; vm_compute].
Defined.

(** C9, counterexample for an include parameter that is present and
    empty: the request [?include=] on the sample project is
    answered with the empty response, which has none of the five keys. *)
Lemma C9_empty_include_value_returns_nothing :
  StatisticsAPI.get Sample.label_stats Sample.db Sample.alice [""] 10 = Ok ∅
  ∧ ¬ ∃ response : gmap string Value,
        StatisticsAPI.get Sample.label_stats Sample.db Sample.alice [""] 10 = Ok response
        ∧ is_Some (response !! "total").
Proof.
  assert (StatisticsAPI.get Sample.label_stats Sample.db Sample.alice [""] 10 = Ok ∅)
    as Hget by by vm_compute.
  split; [exact Hget|]. intros (response & Hresponse & [v Hv]).
  rewrite Hget in Hresponse. injection Hresponse as <-. by rewrite lookup_empty in Hv.
Qed.

(** ** The single-class guard *)

Lemma exists_filter_existsb {A : Type} (f : A → bool) (l : list A) :
  AnnotationList.exists_ (List.filter f l) = existsb f l.
Proof.
  induction l as [|x l IH]; [done|]. cbn [List.filter existsb].
  destruct (f x); [done|]. by rewrite IH.
Qed.

(** The two-step filter of the guard selects the annotations in scope. *)
Lemma guard_filter_in_scope (project : Project) (doc_id : Z) (user : User)
    (rows : list Annotation) :
  (if negb (collaborative_annotation project)
   then List.filter (λ a, ann_user a =? user_id user)
          (List.filter (λ a, ann_document a =? doc_id) rows)
   else List.filter (λ a, ann_document a =? doc_id) rows)
  = List.filter (Spec.in_scope project doc_id user) rows.
Proof.
  unfold Spec.in_scope. destruct (collaborative_annotation project); cbn [negb orb].
  - apply List.filter_ext. intros a. by rewrite andb_true_r.
  - by rewrite List_filter_filter.
Qed.

Lemma check_single_class_classification_spec (db : DB) (project_id doc_id : Z)
    (user : User) (project : Project) :
  get_object_or_404 db project_id = Ok project →
  AnnotationList.check_single_class_classification db project_id doc_id user =
    if single_class_classification project
       && existsb (Spec.in_scope project doc_id user)
                  (objects db (get_annotation_class project))
    then Raise (ValidationError AnnotationList.duplicate_detail)
    else Ok tt.
Proof.
  intros Hproject. unfold AnnotationList.check_single_class_classification.
  rewrite Hproject. cbn [mbind result_bind].
  destruct (single_class_classification project); cbn [negb andb]; [|done].
  by rewrite guard_filter_in_scope, exists_filter_existsb.
Qed.

(** C3. In a project with single_class_classification set, creating an
    annotation on a document fails with the duplicate-annotation
    validation error exactly when an annotation already exists in scope
    (the whole document when the project is collaborative, the pair of
    document and requesting user otherwise), and then nothing is written:
    the database is returned as it was.  In every other case, and always
    when single_class_classification is not set, the request goes on to
    the ordinary creation. *)
Theorem C3_single_class_guard
    (serializer_is_valid : DB → AnnotationClass → gmap string JSON → Result AnnotationBody)
    (db : DB) (project_id doc_id : Z) (user : User) (request_data : gmap string JSON)
    (project : Project) :
  get_object_or_404 db project_id = Ok project →
  let occupied := existsb (Spec.in_scope project doc_id user)
                          (objects db (get_annotation_class project)) in
  AnnotationList.check_single_class_classification db project_id doc_id user
    = (if single_class_classification project && occupied
       then Raise (ValidationError AnnotationList.duplicate_detail)
       else Ok tt)
  ∧ AnnotationList.create serializer_is_valid db project_id doc_id user request_data
    = (if single_class_classification project && occupied
       then (Raise (ValidationError AnnotationList.duplicate_detail), db)
       else AnnotationList.super_create serializer_is_valid db project_id doc_id user
              (<["document" := JInt doc_id]> request_data)).
Proof.
  intros Hproject occupied. split.
  - by apply check_single_class_classification_spec.
  - unfold AnnotationList.create.
    rewrite (check_single_class_classification_spec _ _ _ _ _ Hproject).
    fold occupied. by destruct (single_class_classification project && occupied).
Qed.

Lemma C3_single_class_guard_witness :
  get_object_or_404 Sample.db 10 = Ok Sample.reviews
  ∧ AnnotationList.create Sample.accept_any Sample.db 10 1 Sample.alice ∅
    = (Raise (ValidationError AnnotationList.duplicate_detail), Sample.db)
  ∧ AnnotationList.check_single_class_classification Sample.db 10 1 Sample.bob = Ok tt
  ∧ AnnotationList.check_single_class_classification Sample.db 10 3 Sample.alice = Ok tt.
Proof.
  split; [reflexivity|].
  split; [exact (proj2 (C3_single_class_guard Sample.accept_any Sample.db 10 1
                          Sample.alice ∅ Sample.reviews eq_refl))|].
  split.
  - exact (proj1 (C3_single_class_guard Sample.accept_any Sample.db 10 1
                    Sample.bob ∅ Sample.reviews eq_refl)).
  - exact (proj1 (C3_single_class_guard Sample.accept_any Sample.db 10 3
                    Sample.alice ∅ Sample.reviews eq_refl)).
Defined.

(** In the sample project, which is not collaborative, a second user may
    still classify the document: the row is appended to the table. *)
Example second_user_may_classify :
  doc_annotations
    (AnnotationList.create Sample.accept_any Sample.db 10 1 Sample.bob ∅).2
  = doc_annotations Sample.db ++ [mkAnnotation 3 1 2 (Classification 6)].
Proof. reflexivity. Qed.

(** ** Import: format dispatch *)

Lemma not_import_format (file_format : string) :
  file_format ∉ Spec.import_formats ↔
    String.eqb file_format "plain" = false ∧ String.eqb file_format "csv" = false
    ∧ String.eqb file_format "json" = false ∧ String.eqb file_format "conll" = false
    ∧ String.eqb file_format "excel" = false ∧ String.eqb file_format "audio" = false.
Proof.
  unfold Spec.import_formats. rewrite !not_elem_of_cons, !String.eqb_neq.
  split; [|by intros (?&?&?&?&?&?); repeat split; try done; apply not_elem_of_nil].
  by intros (?&?&?&?&?&?&_).
Qed.

Lemma select_parser_unknown (file_format : string) :
  file_format ∉ Spec.import_formats →
  TextUploadAPI.select_parser file_format
  = Raise (ValidationError (invalid_format_detail file_format)).
Proof.
  intros (H1 & H2 & H3 & H4 & H5 & H6)%not_import_format.
  unfold TextUploadAPI.select_parser. by rewrite H1, H2, H3, H4, H5, H6.
Qed.

Lemma select_parser_known (file_format : string) :
  file_format ∈ Spec.import_formats →
  ∃ parser, TextUploadAPI.select_parser file_format = Ok parser.
Proof.
  unfold Spec.import_formats. rewrite !elem_of_cons.
  intros [->|[->|[->|[->|[->|[->|Hnil]]]]]]; [by eexists..|].
  by apply elem_of_nil in Hnil.
Qed.

(** C5. A format token outside {plain, csv, json, conll, excel, audio}
    makes the import fail with the invalid-format validation error before
    the parser and the storage run: the database and the read position of
    the uploaded file are returned as they were, whatever the parser and
    the storage would do. *)
Theorem C5_unknown_format_fails_before_parsing
    (File Data : Type)
    (parse : Parser → File → World → Result Data * World)
    (storage_save : Project → Data → User → World → Result unit * World)
    (user : User) (file : File) (file_format : string) (project_id : Z)
    (w : World) (project : Project) :
  file_format ∉ Spec.import_formats →
  get_object_or_404 (world_db w) project_id = Ok project →
  TextUploadAPI.select_parser file_format
    = Raise (ValidationError (invalid_format_detail file_format))
  ∧ TextUploadAPI.save_file File Data parse storage_save user file file_format project_id w
    = (Raise (ValidationError (invalid_format_detail file_format)), w)
  ∧ TextUploadAPI.post File Data parse storage_save user
      (TextUploadAPI.mkUploadRequest File (Some file) (Some file_format)) project_id w
    = (Raise (ValidationError (invalid_format_detail file_format)), w).
Proof.
  intros Hunknown Hproject.
  pose proof (select_parser_unknown file_format Hunknown) as Hselect.
  assert (TextUploadAPI.save_file File Data parse storage_save user file file_format
            project_id w
          = (Raise (ValidationError (invalid_format_detail file_format)), w)) as Hsave.
  { unfold TextUploadAPI.save_file. by rewrite Hproject, Hselect. }
  split; [done|]. split; [done|].
  unfold TextUploadAPI.post. cbn [TextUploadAPI.request_file TextUploadAPI.request_format].
  by rewrite Hsave.
Qed.

Lemma C5_unknown_format_witness :
  ("xml" ∉ Spec.import_formats)
  ∧ get_object_or_404 (world_db (mkWorld Sample.db 0)) 10 = Ok Sample.reviews
  ∧ TextUploadAPI.post (list string) (list string) Sample.read_lines Sample.store_lines
      Sample.alice
      (TextUploadAPI.mkUploadRequest (list string) (Some ["one"; "two"]) (Some "xml"))
      10 (mkWorld Sample.db 0)
    = (Raise (ValidationError "format xml is invalid."), mkWorld Sample.db 0).
Proof.
  assert ("xml" ∉ Spec.import_formats) as Hunknown by compute_done.
  split; [exact Hunknown|]. split; [reflexivity|].
  exact (proj2 (proj2 (C5_unknown_format_fails_before_parsing
                         (list string) (list string) Sample.read_lines Sample.store_lines
                         Sample.alice ["one"; "two"] "xml" 10 (mkWorld Sample.db 0)
                         Sample.reviews Hunknown eq_refl))).
Defined.

(** Whether or not the project exists, an upload with an unknown format
    ends in an exception and leaves the database and the file untouched. *)
Lemma unknown_format_leaves_world
    (File Data : Type)
    (parse : Parser → File → World → Result Data * World)
    (storage_save : Project → Data → User → World → Result unit * World)
    (user : User) (request : TextUploadAPI.UploadRequest File) (file_format : string)
    (project_id : Z) (w : World) :
  TextUploadAPI.request_format File request = Some file_format →
  file_format ∉ Spec.import_formats →
  ∃ e, TextUploadAPI.post File Data parse storage_save user request project_id w
       = (Raise e, w).
Proof.
  intros Hformat Hunknown. unfold TextUploadAPI.post, TextUploadAPI.save_file.
  rewrite Hformat, (select_parser_unknown _ Hunknown).
  destruct (TextUploadAPI.request_file File request); [|by eexists].
  destruct (get_object_or_404 (world_db w) project_id); by eexists.
Qed.

(** The same upload in a known format does read the file and write the
    database. *)
Example known_format_reads_and_writes :
  let w' := (TextUploadAPI.post (list string) (list string) Sample.read_lines
               Sample.store_lines Sample.alice
               (TextUploadAPI.mkUploadRequest (list string) (Some ["one"; "two"])
                  (Some "plain"))
               10 (mkWorld Sample.db 0)).2 in
  file_position w' = 2%nat ∧ length (documents (world_db w')) = 6%nat.
Proof. by vm_compute. Qed.

(** C10. For every format token the text upload and the cloud-bucket
    upload select the same parser, and each of them fails exactly on the
    tokens outside {plain, csv, json, conll, excel, audio}. *)
Theorem C10_upload_paths_select_alike (file_format : string) :
  GCPUploadAPI.select_parser file_format = TextUploadAPI.select_parser file_format
  ∧ ((∃ e, GCPUploadAPI.select_parser file_format = Raise e)
     ↔ file_format ∉ Spec.import_formats)
  ∧ ((∃ e, TextUploadAPI.select_parser file_format = Raise e)
     ↔ file_format ∉ Spec.import_formats).
Proof.
  assert (GCPUploadAPI.select_parser file_format = TextUploadAPI.select_parser file_format)
    as Hsame by (unfold GCPUploadAPI.select_parser, TextUploadAPI.select_parser;
                 by repeat case_match).
  assert ((∃ e, TextUploadAPI.select_parser file_format = Raise e)
          ↔ file_format ∉ Spec.import_formats) as Htext.
  { split.
    - intros [e He] Hknown.
      destruct (select_parser_known _ Hknown) as [parser Hparser]. congruence.
    - intros Hunknown. eexists. by apply select_parser_unknown. }
  split; [done|]. split; [by rewrite Hsame|done].
Qed.

(** ** Export: document order *)






(** The document list shown to an annotator does apply the randomized
    order of the same project, which the export does not: for user 2 the
    documents 1, 2, 3 are listed as 2, 1, 3. *)
Example presentation_order_is_randomized :
  DocumentList.get_queryset Sample.db Sample.bob 10
  = Ok [mkDocument 2 10 "second"; mkDocument 1 10 "first"; mkDocument 3 10 "third"].
Proof. reflexivity. Qed.

(** ** Export: json1 and json *)

Lemma resolve_label_name (labels : list Label) (x : Label) :
  NoDup (label_id <$> labels) → x ∈ labels →
  Painters.resolve_label labels (label_id x) = JStr (label_text x).
Proof.
  unfold Painters.resolve_label.
  induction labels as [|y labels IH]; intros Hnd Hin; [by apply elem_of_nil in Hin|].
  rewrite fmap_cons in Hnd. apply NoDup_cons in Hnd as [Hy Hnd].
  cbn [List.find]. destruct (Z.eqb_spec (label_id y) (label_id x)) as [Heq|Hne].
  - apply elem_of_cons in Hin as [->|Hin]; [done|].
    exfalso. apply Hy. rewrite Heq. apply list_elem_of_fmap. eauto.
  - apply elem_of_cons in Hin as [->|Hin]; [done|]. by apply IH.
Qed.

Lemma project_labels_NoDup (db : DB) (project : Project) :
  NoDup (label_id <$> labels db) → NoDup (label_id <$> project_labels db project).
Proof. apply NoDup_fmap_List_filter. Qed.

(** C7. An export with format json1 is the label-resolution pass over the
    project's documents and the project's labels: every document is
    rendered as text plus the list of its spans [start, end, name], where
    the name is the text of the project label the annotation refers to.
    An export with format json is the ordinary paint pass, which renders
    the same annotation with its numeric label id. *)
Theorem C7_json1_resolves_label_names
    (csv_row : Document → list Annotation → list Label → JSON)
    (database_order : list Document → list Document)
    (db : DB) (project_id : Z) (project : Project) :
  get_object_or_404 db project_id = Ok project →
  NoDup (label_id <$> labels db) →
  let documents := database_order (project_documents db project) in
  let labels := project_labels db project in
  TextDownloadAPI.get csv_row database_order db (Some "json1") project_id
    = Ok (Painters.paint_labels db project documents labels)
  ∧ TextDownloadAPI.get csv_row database_order db (Some "json") project_id
    = Ok (Painters.paint csv_row JSONPainter db project documents)
  ∧ (∀ (i : nat) (d : Document),
       documents !! i = Some d →
       Painters.paint_labels db project documents labels !! i
         = Some (JObj [("text", JStr (doc_text d));
                       ("labels", JArr (omap (Painters.paint_label labels)
                                          (Painters.annotations_of db project d)))])
       ∧ Painters.paint csv_row JSONPainter db project documents !! i
         = Some (JObj [("text", JStr (doc_text d));
                       ("annotations", JArr (Painters.paint_annotation
                                               <$> Painters.annotations_of db project d))]))
  ∧ (∀ (a : Annotation) (x : Label) (start_offset end_offset : Z),
       ann_body a = Span (label_id x) start_offset end_offset →
       x ∈ labels →
       Painters.paint_label labels a
         = Some (JArr [JInt start_offset; JInt end_offset; JStr (label_text x)])
       ∧ Painters.paint_annotation a
         = JObj [("label", JInt (label_id x)); ("start_offset", JInt start_offset);
                 ("end_offset", JInt end_offset); ("user", JInt (ann_user a))]).
Proof.
  intros Hproject Hnd documents labels.
  split; [|split; [|split]].
  - unfold TextDownloadAPI.get. by rewrite Hproject.
  - unfold TextDownloadAPI.get. by rewrite Hproject.
  - intros i d Hd. cbn [Painters.paint].
    unfold Painters.paint_labels, Painters.paint_json.
    rewrite !list_lookup_fmap, Hd. done.
  - intros a x start_offset end_offset Hbody Hx.
    unfold Painters.paint_label, Painters.paint_annotation. rewrite Hbody.
    by rewrite resolve_label_name by (by subst labels; try apply project_labels_NoDup).
Qed.

Lemma C7_json1_witness :
  get_object_or_404 Sample.db 11 = Ok Sample.entities
  ∧ NoDup (label_id <$> labels Sample.db)
  ∧ TextDownloadAPI.get Sample.text_row Sample.table_order Sample.db (Some "json1") 11
    = Ok [JObj [("text", JStr "Barack Obama was here");
                ("labels", JArr [JArr [JInt 0; JInt 15; JStr "PERSON"]])]]
  ∧ TextDownloadAPI.get Sample.text_row Sample.table_order Sample.db (Some "json") 11
    = Ok [JObj [("text", JStr "Barack Obama was here");
                ("annotations",
                 JArr [JObj [("label", JInt 5); ("start_offset", JInt 0);
                             ("end_offset", JInt 15); ("user", JInt 2)]])]].
Proof.
  assert (NoDup (label_id <$> labels Sample.db)) as Hnd by compute_done.
  split; [reflexivity|]. split; [exact Hnd|].
  destruct (C7_json1_resolves_label_names Sample.text_row Sample.table_order Sample.db 11
              Sample.entities eq_refl Hnd) as (Hjson1 & Hjson & _).
  split; [exact Hjson1|exact Hjson].
Defined.

(** When the label of an annotation is no longer among the project's
    labels, the json1 entry keeps the numeric id. *)
Example json1_keeps_id_of_missing_label :
  Painters.paint_label [mkLabel 5 11 "PERSON" "p"] (mkAnnotation 1 4 2 (Span 9 0 15))
  = Some (JArr [JInt 0; JInt 15; JInt 9]).
Proof. reflexivity. Qed.

(** ** Label upload *)

Import LabelUploadAPI.

Lemma with_labels_id (db : DB) : with_labels db (labels db) = db.
Proof. by destruct db. Qed.

Lemma concat_take_S {A : Type} (k : nat) (others : list (list A)) :
  concat (take (S k) others) = hd [] others ++ concat (take k (tl others)).
Proof. destruct others as [|o os]; [by cbn; rewrite take_nil|done]. Qed.

Lemma serializer_save_cases (project : Project) (label : LabelData) (t : Txn) :
  serializer_save project label t = (Raise IntegrityError, mkTxn (store t) (own t) true)
  ∨ ∃ row, serializer_save project label t
           = (Ok tt, mkTxn (store t) (own t ++ [row]) (needs_rollback t))
         ∧ label_project row = project_id project
         ∧ label_text row = data_text label
         ∧ label_shortkey row = data_shortkey label.
Proof.
  unfold serializer_save. destruct (existsb _ (visible_labels t)); [by left|].
  right. by eexists.
Qed.

Lemma serializer_save_conflict (project : Project) (label : LabelData) (t : Txn) (x : Label) :
  x ∈ visible_labels t → Spec.same_name_or_shortkey project label x →
  serializer_save project label t = (Raise IntegrityError, mkTxn (store t) (own t) true).
Proof.
  intros Hx (Hproject & Hsame). unfold serializer_save.
  rewrite (proj2 (existsb_exists _ _)); [reflexivity|].
  exists x. split; [by apply list_elem_of_In|].
  unfold conflicts. cbn [label_project label_text label_shortkey].
  apply andb_true_iff. split; [lia|]. apply orb_true_iff.
  destruct Hsame as [Hsame|Hsame]; [left|right]; by apply String.eqb_eq.
Qed.

(** While the loop runs, the committed database changes only by the label
    rows the other requests commit. *)
Lemma save_labels_store (is_valid : LabelData → bool) (project : Project)
    (batch : list LabelData) (others : list (list Label)) (t : Txn)
    (r : Result unit) (t' : Txn) :
  save_labels is_valid project batch others t = (r, t') →
  ∃ k : nat, (k ≤ length batch)%nat
    ∧ store t' = with_labels (store t) (labels (store t) ++ concat (take k others))
    ∧ (r = Raise IntegrityError → needs_rollback t' = true).
Proof.
  revert others t. induction batch as [|l batch IH]; intros others t Hrun.
  - cbn in Hrun. injection Hrun as <- <-. exists 0%nat.
    split; [done|]. split; [|done].
    by rewrite take_0, app_nil_r, with_labels_id.
  - cbn [save_labels] in Hrun.
    set (t1 := others_commit (hd [] others) t) in *.
    assert (store t1 = with_labels (store t) (labels (store t) ++ concat (take 1 others)))
      as Hone.
    { rewrite concat_take_S, take_0. cbn [concat]. by rewrite app_nil_r. }
    destruct (is_valid l).
    + destruct (serializer_save_cases project l t1) as [Hsave|(row & Hsave & _)];
        rewrite Hsave in Hrun.
      * injection Hrun as <- <-. exists 1%nat. cbn [length store needs_rollback].
        split; [lia|]. by split.
      * apply IH in Hrun as (k & Hk & Hstore & Hmark).
        exists (S k). cbn [length]. split; [lia|]. split; [|done].
        rewrite Hstore. cbn [store]. rewrite concat_take_S.
        subst t1. unfold others_commit, with_labels. cbn [store labels].
        by rewrite <- app_assoc.
    + injection Hrun as <- <-. exists 1%nat. cbn [length].
      split; [lia|]. by split.
Qed.

(** A label that duplicates a row present when its insert runs, or an
    earlier entry of the batch, ends the loop with an integrity error. *)
Lemma save_labels_duplicate (is_valid : LabelData → bool) (project : Project)
    (label : LabelData) (after before : list LabelData)
    (others : list (list Label)) (t : Txn) :
  (∀ l, l ∈ before ++ [label] → is_valid l = true) →
  Spec.duplicates project label
    (visible_labels t ++ concat (take (S (length before)) others)) before →
  ∃ t', save_labels is_valid project (before ++ label :: after) others t
        = (Raise IntegrityError, t').
Proof.
  revert others t. induction before as [|l before IH]; intros others t Hvalid Hdup.
  - destruct Hdup as [(x & Hx & Hsame)|(l0 & Hl0 & _)];
      [|by apply elem_of_nil in Hl0].
    cbn [app save_labels]. rewrite (Hvalid label) by set_solver.
    rewrite (serializer_save_conflict project label _ x); [by eexists| |done].
    cbn [length] in Hx. rewrite concat_take_S, take_0 in Hx. cbn [concat] in Hx.
    rewrite app_nil_r in Hx. unfold visible_labels, others_commit, with_labels in *.
    cbn [store labels own]. set_solver.
  - cbn [app save_labels]. rewrite (Hvalid l) by set_solver.
    set (t1 := others_commit (hd [] others) t).
    destruct (serializer_save_cases project l t1)
      as [Hsave|(row & Hsave & Hrow_project & Hrow_text & Hrow_key)];
      rewrite Hsave; [by eexists|].
    apply IH; [intros l' Hl'; apply Hvalid; set_solver|].
    cbn [length] in Hdup. rewrite concat_take_S in Hdup.
    unfold Spec.duplicates, visible_labels in *. cbn [store own].
    subst t1. unfold others_commit, with_labels in *. cbn [store labels own].
    destruct Hdup as [(x & Hx & Hsame)|(l0 & Hl0 & Hsame)].
    + left. exists x. split; [set_solver|done].
    + apply elem_of_cons in Hl0 as [->|Hl0].
      * left. exists row. split; [set_solver|].
        unfold Spec.same_name_or_shortkey. rewrite Hrow_project, Hrow_text, Hrow_key.
        done.
      * right. eauto.
Qed.

(** Whatever the upload answers other than 201, the database holds no row
    of its batch: it is the initial database plus the rows the other
    requests have committed meanwhile. *)
Lemma post_failure_persists_nothing (is_valid : LabelData → bool)
    (others : list (list Label)) (request_file : option (list LabelData))
    (project_id : Z) (db db' : DB) (r : Result Response) :
  post is_valid others request_file project_id db = (r, db') →
  r ≠ Ok (mkResponse JNull HTTP_201_CREATED) →
  ∃ k : nat, db' = with_labels db (labels db ++ concat (take k others)).
Proof.
  unfold post, atomic. intros Hpost Hfail.
  assert (db = with_labels db (labels db ++ concat (take 0 others))) as Hzero
    by by rewrite take_0, app_nil_r, with_labels_id.
  destruct request_file as [batch|]; cbn [store] in Hpost;
    [|injection Hpost as <- <-; by exists 0%nat].
  destruct (get_object_or_404 db project_id) as [project|e];
    [|injection Hpost as <- <-; by exists 0%nat].
  destruct (save_labels is_valid project batch others (mkTxn db [] false))
    as [r0 t'] eqn:Hrun.
  apply save_labels_store in Hrun as (k & _ & Hstore & Hmark). cbn [store] in Hstore.
  destruct r0 as [[]|e].
  - destruct (needs_rollback t'); injection Hpost as <- <-; [by exists k|done].
  - destruct e; try (injection Hpost as <- <-; by exists k).
    rewrite Hmark in Hpost by done. injection Hpost as <- <-. by exists k.
Qed.

(** C8. In a label upload, an entry whose name or shortkey in the project
    duplicates a label that is present when its insert runs (in the
    database from the start, committed meanwhile by another request, or
    inserted earlier by the same batch) makes the upload answer 400 with
    the integrity-error message, and no row of the batch is persisted: the
    database is the initial one plus the rows other requests committed. *)
Theorem C8_duplicate_label_rejected_batch_rolled_back
    (is_valid : LabelData → bool) (others : list (list Label))
    (db : DB) (project_id : Z) (project : Project)
    (before after : list LabelData) (label : LabelData) :
  get_object_or_404 db project_id = Ok project →
  (∀ l, l ∈ before ++ [label] → is_valid l = true) →
  Spec.duplicates project label
    (labels db ++ concat (take (S (length before)) others)) before →
  ∃ k : nat,
    post is_valid others (Some (before ++ label :: after)) project_id db
    = (Ok (mkResponse integrity_error_content HTTP_400_BAD_REQUEST),
       with_labels db (labels db ++ concat (take k others))).
Proof.
  intros Hproject Hvalid Hdup.
  destruct (save_labels_duplicate is_valid project label after before others
              (mkTxn db [] false) Hvalid) as [t' Hrun].
  { unfold visible_labels. cbn [store own]. by rewrite app_nil_r. }
  destruct (save_labels_store _ _ _ _ _ _ _ Hrun) as (k & _ & Hstore & Hmark).
  exists k. unfold post, atomic. cbn [store]. rewrite Hproject, Hrun.
  rewrite Hmark by done. by rewrite Hstore.
Qed.

Lemma C8_duplicate_label_witness :
  get_object_or_404 Sample.db 10 = Ok Sample.reviews
  ∧ (∀ l, l ∈ [Sample.negative] ++ [Sample.positive] → Sample.accept_label l = true)
  ∧ Spec.duplicates Sample.reviews Sample.positive
      (labels Sample.db ++ concat (take 2 [])) [Sample.negative]
  ∧ ∃ k : nat,
      post Sample.accept_label []
        (Some ([Sample.negative] ++ Sample.positive :: [Sample.neutral])) 10 Sample.db
      = (Ok (mkResponse integrity_error_content HTTP_400_BAD_REQUEST),
         with_labels Sample.db (labels Sample.db ++ concat (take k []))).
Proof.
  assert (∀ l, l ∈ [Sample.negative] ++ [Sample.positive] → Sample.accept_label l = true)
    as Hvalid by done.
  assert (Spec.duplicates Sample.reviews Sample.positive
            (labels Sample.db ++ concat (take 2 [])) [Sample.negative]) as Hdup.
  { left. exists (mkLabel 6 10 "positive" "y"). split; [|split; [reflexivity|by left]].
    cbn. set_solver. }
  split; [reflexivity|]. split; [exact Hvalid|]. split; [exact Hdup|].
  exact (C8_duplicate_label_rejected_batch_rolled_back Sample.accept_label [] Sample.db 10
           Sample.reviews [Sample.negative] [Sample.neutral] Sample.positive
           eq_refl Hvalid Hdup).
Defined.

(** The failing batch of the sample leaves the database as it was, its
    first entry included; without the duplicate the batch is committed. *)
Example failing_batch_leaves_database :
  post Sample.accept_label [] (Some [Sample.negative; Sample.positive; Sample.neutral])
    10 Sample.db
  = (Ok (mkResponse integrity_error_content HTTP_400_BAD_REQUEST), Sample.db).
Proof. reflexivity. Qed.

Example clean_batch_is_committed :
  let '(r, db') := post Sample.accept_label [] (Some [Sample.negative; Sample.neutral])
                     10 Sample.db in
  r = Ok (mkResponse JNull HTTP_201_CREATED)
  ∧ labels db' = labels Sample.db
                 ++ [mkLabel 7 10 "negative" "n"; mkLabel 8 10 "neutral" "u"].
Proof. by split. Qed.

(** Two identical uploads at the same time: the other request commits its
    label first, this one is rejected and adds nothing. *)
Example concurrent_identical_upload :
  post Sample.accept_label [[mkLabel 7 10 "negative" "n"]] (Some [Sample.negative])
    10 Sample.db
  = (Ok (mkResponse integrity_error_content HTTP_400_BAD_REQUEST),
     with_labels Sample.db (labels Sample.db ++ [mkLabel 7 10 "negative" "n"])).
Proof. reflexivity. Qed.

(** * Further properties of the views *)

(** ** Progress figures *)

Lemma List_filter_length_mono {A : Type} (f g : A → bool) (l : list A) :
  (∀ x, x ∈ l → f x = true → g x = true) →
  (length (List.filter f l) ≤ length (List.filter g l))%nat.
Proof.
  induction l as [|x l IH]; intros Himp; [done|]. cbn [List.filter].
  assert ((length (List.filter f l) ≤ length (List.filter g l))%nat) as Hl.
  { apply IH. intros y Hy. apply Himp. by right. }
  destruct (f x) eqn:Hf.
  - rewrite (Himp x) by (done || by left). cbn [length]. lia.
  - destruct (g x); cbn [length]; lia.
Qed.

Lemma count_documents_bounds (p : Document → bool) (docs : list Document) :
  0 ≤ Spec.count_documents p docs ≤ Z.of_nat (length docs).
Proof.
  unfold Spec.count_documents. pose proof (List.filter_length_le p docs). lia.
Qed.

Lemma annotated_by_mono (rows : list Annotation) (q q' : Annotation → bool) (d : Document) :
  (∀ a, q a = true → q' a = true) →
  Spec.annotated_by rows q d = true → Spec.annotated_by rows q' d = true.
Proof.
  intros Himp. unfold Spec.annotated_by. rewrite !existsb_exists.
  intros (a & Ha & Hq). exists a. split; [done|].
  apply andb_true_iff in Hq as [Hd Hq]. apply andb_true_iff. split; [done|by apply Himp].
Qed.

(** The remaining count lies between 0 and the total. *)
Theorem progress_remaining_bounds (db : DB) (request_user : User) (project : Project) :
  NoDup (doc_id <$> documents db) →
  ∃ total remaining : Z,
    StatisticsAPI.progress db request_user project !! "total" = Some (VInt total)
    ∧ StatisticsAPI.progress db request_user project !! "remaining" = Some (VInt remaining)
    ∧ 0 ≤ remaining ≤ total.
Proof.
  intros Hnd. eexists _, _.
  split; [apply progress_total|]. split; [by apply progress_remaining|].
  pose proof (count_documents_bounds
    (Spec.annotated_by (objects db (get_annotation_class project))
       (Spec.qualifies project request_user)) (project_documents db project)).
  lia.
Qed.

Lemma progress_remaining_bounds_witness :
  NoDup (doc_id <$> documents Sample.db)
  ∧ ∃ total remaining : Z,
      StatisticsAPI.progress Sample.db Sample.bob Sample.reviews !! "total"
        = Some (VInt total)
      ∧ StatisticsAPI.progress Sample.db Sample.bob Sample.reviews !! "remaining"
        = Some (VInt remaining)
      ∧ 0 ≤ remaining ≤ total.
Proof.
  assert (NoDup (doc_id <$> documents Sample.db)) as Hnd by compute_done.
  split; [exact Hnd|].
  exact (progress_remaining_bounds Sample.db Sample.bob Sample.reviews Hnd).
Defined.

(** Making a project collaborative never raises the remaining count of a
    user: every document done in private mode is done in shared mode. *)
Theorem collaborative_remaining_le_private (db : DB) (request_user : User)
    (project : Project) :
  NoDup (doc_id <$> documents db) →
  ∃ shared private : Z,
    StatisticsAPI.progress db request_user (Spec.with_collaborative project true)
      !! "remaining" = Some (VInt shared)
    ∧ StatisticsAPI.progress db request_user (Spec.with_collaborative project false)
      !! "remaining" = Some (VInt private)
    ∧ shared ≤ private.
Proof.
  intros Hnd. eexists _, _.
  split; [by apply progress_remaining|]. split; [by apply progress_remaining|].
  unfold Spec.count_documents.
  change (project_documents db (Spec.with_collaborative project true))
    with (project_documents db project).
  change (project_documents db (Spec.with_collaborative project false))
    with (project_documents db project).
  change (get_annotation_class (Spec.with_collaborative project true))
    with (get_annotation_class project).
  change (get_annotation_class (Spec.with_collaborative project false))
    with (get_annotation_class project).
  pose proof (List_filter_length_mono
    (Spec.annotated_by (objects db (get_annotation_class project))
       (Spec.qualifies (Spec.with_collaborative project false) request_user))
    (Spec.annotated_by (objects db (get_annotation_class project))
       (Spec.qualifies (Spec.with_collaborative project true) request_user))
    (project_documents db project)) as Hmono.
  cut ((length (List.filter
          (Spec.annotated_by (objects db (get_annotation_class project))
             (Spec.qualifies (Spec.with_collaborative project false) request_user))
          (project_documents db project))
        ≤ length (List.filter
          (Spec.annotated_by (objects db (get_annotation_class project))
             (Spec.qualifies (Spec.with_collaborative project true) request_user))
          (project_documents db project)))%nat); [lia|].
  apply Hmono. intros d _. apply annotated_by_mono. by intros a _.
Qed.

Lemma collaborative_remaining_witness :
  NoDup (doc_id <$> documents Sample.db)
  ∧ StatisticsAPI.progress Sample.db Sample.bob (Spec.with_collaborative Sample.reviews true)
      !! "remaining" = Some (VInt 1)
  ∧ StatisticsAPI.progress Sample.db Sample.bob (Spec.with_collaborative Sample.reviews false)
      !! "remaining" = Some (VInt 3)
  ∧ ∃ shared private : Z,
      StatisticsAPI.progress Sample.db Sample.bob
        (Spec.with_collaborative Sample.reviews true) !! "remaining" = Some (VInt shared)
      ∧ StatisticsAPI.progress Sample.db Sample.bob
        (Spec.with_collaborative Sample.reviews false) !! "remaining" = Some (VInt private)
      ∧ shared ≤ private.
Proof.
  assert (NoDup (doc_id <$> documents Sample.db)) as Hnd by compute_done.
  split; [exact Hnd|]. split; [by vm_compute|]. split; [by vm_compute|].
  exact (collaborative_remaining_le_private Sample.db Sample.bob Sample.reviews Hnd).
Defined.

Lemma NoDup_fmap_eq {A B : Type} (f : A → B) (l : list A) (x y : A) :
  NoDup (f <$> l) → x ∈ l → y ∈ l → f x = f y → x = y.
Proof.
  induction l as [|z l IH]; intros Hnd Hx Hy Heq; [by apply elem_of_nil in Hx|].
  rewrite fmap_cons in Hnd. apply NoDup_cons in Hnd as [Hz Hnd].
  apply elem_of_cons in Hx as [->|Hx]; apply elem_of_cons in Hy as [->|Hy].
  - done.
  - exfalso. apply Hz. rewrite Heq. by apply list_elem_of_fmap_2.
  - exfalso. apply Hz. rewrite <- Heq. by apply list_elem_of_fmap_2.
  - by apply IH.
Qed.

(** With unique user ids and unique user names, the rows of a user's name
    are the rows of the user's id. *)
Lemma authored_by_own_name (db : DB) (user : User) (a : Annotation) :
  NoDup (user_id <$> users db) → NoDup (username <$> users db) → user ∈ users db →
  Spec.authored_by db (username user) a = (ann_user a =? user_id user).
Proof.
  intros Hids Hnames Hin. unfold Spec.authored_by, user__username.
  destruct (List.find _ (users db)) as [u|] eqn:Hfind; cbn [fmap option_fmap option_map].
  - apply find_some in Hfind as [Hu Hid]. apply list_elem_of_In in Hu.
    apply Z.eqb_eq in Hid.
    destruct (Z.eqb_spec (ann_user a) (user_id user)) as [Heq|Hne].
    + apply bool_decide_eq_true. f_equal. f_equal.
      apply (NoDup_fmap_eq user_id (users db)); [done..|congruence].
    + apply bool_decide_eq_false. intros [= Hname]. apply Hne.
      assert (u = user) as -> by by apply (NoDup_fmap_eq username (users db)).
      done.
  - rewrite bool_decide_eq_false_2 by done. symmetry. apply Z.eqb_neq. intros Heq.
    pose proof (find_none _ _ Hfind user (proj1 (list_elem_of_In _ _) Hin)) as Hnone.
    cbn in Hnone. apply Z.eqb_neq in Hnone. congruence.
Qed.

Lemma annotated_by_ext (rows : list Annotation) (q q' : Annotation → bool) (d : Document) :
  (∀ a, q a = q' a) → Spec.annotated_by rows q d = Spec.annotated_by rows q' d.
Proof.
  intros Hext. unfold Spec.annotated_by.
  induction rows as [|a rows IH]; [done|]. cbn [existsb]. by rewrite Hext, IH.
Qed.

(** In a project that is not collaborative, the number of documents done
    (total minus remaining) is the requesting user's own entry of the
    per-user map, or 0 when the user has no entry. *)
Theorem private_done_is_own_entry (db : DB) (request_user : User) (project : Project) :
  NoDup (doc_id <$> documents db) →
  NoDup (user_id <$> users db) →
  NoDup (username <$> users db) →
  request_user ∈ users db →
  collaborative_annotation project = false →
  ∃ (total remaining : Z) (user_data : gmap string Z),
    StatisticsAPI.progress db request_user project !! "total" = Some (VInt total)
    ∧ StatisticsAPI.progress db request_user project !! "remaining" = Some (VInt remaining)
    ∧ StatisticsAPI.progress db request_user project !! "user" = Some (VCounts user_data)
    ∧ total - remaining = default 0 (user_data !! username request_user).
Proof.
  intros Hdocs Hids Hnames Hin Hprivate. eexists _, _, _.
  split; [apply progress_total|]. split; [by apply progress_remaining|].
  split; [apply progress_user|].
  rewrite user_completion_lookup by by apply project_documents_NoDup. cbn zeta.
  assert (Spec.count_documents
            (Spec.annotated_by (objects db (get_annotation_class project))
               (Spec.authored_by db (username request_user)))
            (project_documents db project)
          = Spec.count_documents
              (Spec.annotated_by (objects db (get_annotation_class project))
                 (Spec.qualifies project request_user))
              (project_documents db project)) as ->.
  { unfold Spec.count_documents. do 2 f_equal. apply List.filter_ext. intros d.
    apply annotated_by_ext. intros a. rewrite authored_by_own_name by done.
    unfold Spec.qualifies. by rewrite Hprivate. }
  set (own := Spec.count_documents _ _).
  destruct (Z.eqb_spec own 0) as [Hzero|_]; cbn [default]; unfold id; lia.
Qed.

Lemma private_done_witness :
  NoDup (doc_id <$> documents Sample.db)
  ∧ NoDup (user_id <$> users Sample.db)
  ∧ NoDup (username <$> users Sample.db)
  ∧ Sample.alice ∈ users Sample.db
  ∧ collaborative_annotation Sample.reviews = false
  ∧ ∃ (total remaining : Z) (user_data : gmap string Z),
      StatisticsAPI.progress Sample.db Sample.alice Sample.reviews !! "total"
        = Some (VInt total)
      ∧ StatisticsAPI.progress Sample.db Sample.alice Sample.reviews !! "remaining"
        = Some (VInt remaining)
      ∧ StatisticsAPI.progress Sample.db Sample.alice Sample.reviews !! "user"
        = Some (VCounts user_data)
      ∧ total - remaining = default 0 (user_data !! username Sample.alice).
Proof.
  assert (NoDup (doc_id <$> documents Sample.db)) as Hdocs by compute_done.
  assert (NoDup (user_id <$> users Sample.db)) as Hids by compute_done.
  assert (NoDup (username <$> users Sample.db)) as Hnames by compute_done.
  assert (Sample.alice ∈ users Sample.db) as Hin by (cbn; set_solver).
  split; [exact Hdocs|]. split; [exact Hids|]. split; [exact Hnames|].
  split; [exact Hin|]. split; [reflexivity|].
  exact (private_done_is_own_entry Sample.db Sample.alice Sample.reviews
           Hdocs Hids Hnames Hin eq_refl).
Defined.

(** Every entry of the per-user map is at least 1 and at most the total. *)
Theorem per_user_entry_bounds (db : DB) (request_user : User) (project : Project)
    (user_data : gmap string Z) (u : string) (n : Z) :
  NoDup (doc_id <$> documents db) →
  StatisticsAPI.progress db request_user project !! "user" = Some (VCounts user_data) →
  user_data !! u = Some n →
  1 ≤ n ≤ Z.of_nat (length (project_documents db project)).
Proof.
  intros Hnd Huser Hn. rewrite progress_user in Huser. injection Huser as <-.
  rewrite user_completion_lookup in Hn by by apply project_documents_NoDup.
  cbn zeta in Hn.
  pose proof (count_documents_bounds
    (Spec.annotated_by (objects db (get_annotation_class project)) (Spec.authored_by db u))
    (project_documents db project)) as Hbounds.
  destruct (Z.eqb_spec (Spec.count_documents
                          (Spec.annotated_by (objects db (get_annotation_class project))
                             (Spec.authored_by db u))
                          (project_documents db project)) 0) as [|Hne]; [done|].
  injection Hn as <-. lia.
Qed.

Lemma per_user_entry_bounds_witness :
  NoDup (doc_id <$> documents Sample.db)
  ∧ StatisticsAPI.progress Sample.db Sample.alice Sample.reviews !! "user"
    = Some (VCounts {["A" := 2]})
  ∧ ({["A" := 2]} : gmap string Z) !! "A" = Some 2
  ∧ 1 ≤ 2 ≤ Z.of_nat (length (project_documents Sample.db Sample.reviews)).
Proof.
  assert (NoDup (doc_id <$> documents Sample.db)) as Hnd by compute_done.
  assert (StatisticsAPI.progress Sample.db Sample.alice Sample.reviews !! "user"
          = Some (VCounts {["A" := 2]})) as Huser by by vm_compute.
  split; [exact Hnd|]. split; [exact Huser|]. split; [reflexivity|].
  exact (per_user_entry_bounds Sample.db Sample.alice Sample.reviews {["A" := 2]} "A" 2
           Hnd Huser eq_refl).
Defined.

(** ** Selecting statistics *)

Lemma dom_filter_include (response : gmap string Value) (include : gset string) :
  dom (filter (λ kv : string * Value, kv.1 ∈ include) response) = include ∩ dom response.
Proof.
  apply dom_filter_L. intros k. rewrite elem_of_intersection, elem_of_dom.
  unfold is_Some. cbn [fst]. naive_solver.
Qed.

Lemma label_stats_disjoint (db : DB) (request_user : User) (project : Project)
    (label_count user_count : gmap string Z) :
  StatisticsAPI.progress db request_user project
  ##ₘ <["user_label" := VCounts user_count]> (<["label" := VCounts label_count]> ∅).
Proof.
  apply map_disjoint_dom. rewrite progress_dom, !dom_insert_L, dom_empty_L. set_solver.
Qed.

(** With a non-empty selection the response has the requested keys among
    total, remaining and user, and label and user_label when label is
    requested; any other requested key is ignored and no key is returned
    that was not requested. *)
Theorem get_selection_keys
    (get_label_per_data : DB → AnnotationClass → Project → gmap string Z * gmap string Z)
    (db : DB) (request_user : User) (GET_include : list string) (project_id : Z)
    (project : Project) :
  get_object_or_404 db project_id = Ok project →
  GET_include ≠ [] →
  ∃ response : gmap string Value,
    StatisticsAPI.get get_label_per_data db request_user GET_include project_id = Ok response
    ∧ dom response
      = (list_to_set GET_include : gset string)
        ∩ ({["total"; "remaining"; "user"]}
           ∪ (if bool_decide ("label" ∈ GET_include)
              then {["label"; "user_label"]} else ∅)).
Proof.
  intros Hproject Hne. unfold StatisticsAPI.get.
  rewrite Hproject. cbn [mbind result_bind].
  rewrite (bool_decide_ext ("label" ∈ GET_include)
             ("label" ∈ (list_to_set GET_include : gset string)))
    by by rewrite elem_of_list_to_set.
  set (include := list_to_set GET_include : gset string) in *.
  assert (include ≠ ∅) as Hinc.
  { destruct GET_include as [|k ks]; [done|]. subst include. set_solver. }
  rewrite !(bool_decide_eq_false_2 (include = ∅)) by done.
  rewrite (bool_decide_eq_true_2 (include ≠ ∅)) by done.
  cbn [orb].
  destruct (StatisticsAPI.label_per_data _ db project) as [label_count user_count].
  eexists. split; [reflexivity|]. rewrite dom_filter_include.
  unfold StatisticsAPI.update.
  repeat case_bool_decide; cbn [orb];
    rewrite ?dom_union_L, ?progress_dom, ?dom_insert_L, ?dom_empty_L;
    set_solver.
Qed.

Lemma get_selection_keys_witness :
  get_object_or_404 Sample.db 10 = Ok Sample.reviews
  ∧ ["remaining"; "user_label"; "color"] ≠ []
  ∧ ∃ response : gmap string Value,
      StatisticsAPI.get Sample.no_label_stats Sample.db Sample.alice
        ["remaining"; "user_label"; "color"] 10 = Ok response
      ∧ dom response
        = (list_to_set ["remaining"; "user_label"; "color"] : gset string)
          ∩ ({["total"; "remaining"; "user"]}
             ∪ (if bool_decide ("label" ∈ ["remaining"; "user_label"; "color"])
                then {["label"; "user_label"]} else ∅)).
Proof.
  assert (["remaining"; "user_label"; "color"] ≠ []) as Hne by done.
  split; [reflexivity|]. split; [exact Hne|].
  exact (get_selection_keys Sample.no_label_stats Sample.db Sample.alice
           ["remaining"; "user_label"; "color"] 10 Sample.reviews eq_refl Hne).
Defined.

(** On the sample, of the keys remaining, user_label and color only
    remaining is returned. *)
Example selection_on_sample :
  StatisticsAPI.get Sample.no_label_stats Sample.db Sample.alice
    ["remaining"; "user_label"; "color"] 10 = Ok {["remaining" := VInt 1]}.
Proof. by vm_compute. Qed.

(** A selection never changes a value: every key of a selected response
    is bound as in the response without selection. *)
Theorem selection_keeps_values
    (get_label_per_data : DB → AnnotationClass → Project → gmap string Z * gmap string Z)
    (db : DB) (request_user : User) (GET_include : list string) (project_id : Z)
    (response : gmap string Value) :
  StatisticsAPI.get get_label_per_data db request_user GET_include project_id = Ok response →
  ∃ full : gmap string Value,
    StatisticsAPI.get get_label_per_data db request_user [] project_id = Ok full
    ∧ response ⊆ full.
Proof.
  unfold StatisticsAPI.get.
  destruct (get_object_or_404 db project_id) as [project|e]; [|done].
  cbn [mbind result_bind].
  cbn [list_to_set foldr]. rewrite !(bool_decide_eq_true_2 (∅ = ∅)) by done.
  rewrite (bool_decide_eq_false_2 (∅ ≠ ∅)) by (intros Hne; by apply Hne).
  cbn [orb].
  destruct (StatisticsAPI.label_per_data _ db project) as [label_count user_count].
  pose proof (label_stats_disjoint db request_user project label_count user_count) as Hdisj.
  unfold StatisticsAPI.update. intros [= <-]. eexists. split; [reflexivity|].
  set (stats := <["user_label" := VCounts user_count]> (<["label" := VCounts label_count]> ∅))
    in *.
  assert (∀ m : gmap string Value,
            m ⊆ StatisticsAPI.progress db request_user project ∪ stats →
            (if bool_decide (list_to_set GET_include ≠ (∅ : gset string))
             then filter (λ kv : string * Value,
                            kv.1 ∈ (list_to_set GET_include : gset string)) m
             else m)
            ⊆ StatisticsAPI.progress db request_user project ∪ stats) as Hfilter.
  { intros m Hm. case_bool_decide; [|done].
    etrans; [apply map_filter_subseteq|done]. }
  apply Hfilter.
  repeat case_bool_decide; cbn [orb];
    first [ done
          | by apply map_union_subseteq_r
          | by apply map_union_subseteq_l
          | by apply map_union_mono_l, map_empty_subseteq
          | by apply map_empty_subseteq
          | idtac ].
  all: try (rewrite (right_id_L ∅ (∪)); by apply map_union_subseteq_l).
Qed.

Lemma selection_keeps_values_witness :
  StatisticsAPI.get Sample.no_label_stats Sample.db Sample.alice ["total"] 10
    = Ok {["total" := VInt 3]}
  ∧ ∃ full : gmap string Value,
      StatisticsAPI.get Sample.no_label_stats Sample.db Sample.alice [] 10 = Ok full
      ∧ ({["total" := VInt 3]} : gmap string Value) ⊆ full.
Proof.
  assert (StatisticsAPI.get Sample.no_label_stats Sample.db Sample.alice ["total"] 10
          = Ok {["total" := VInt 3]}) as Hget by by vm_compute.
  split; [exact Hget|].
  exact (selection_keeps_values Sample.no_label_stats Sample.db Sample.alice ["total"] 10
           {["total" := VInt 3]} Hget).
Defined.

(** ** Listing and creating annotations *)

Lemma next_id_above (ids : list Z) (x : Z) :
  x ∈ ids → x < AnnotationList.next_id ids.
Proof.
  unfold AnnotationList.next_id. induction ids as [|y ids IH]; intros Hx.
  - by apply elem_of_nil in Hx.
  - cbn [foldr]. apply elem_of_cons in Hx as [->|Hx]; [lia|].
    specialize (IH Hx). lia.
Qed.

Lemma next_id_fresh (ids : list Z) : AnnotationList.next_id ids ∉ ids.
Proof. intros Hin. apply next_id_above in Hin. lia. Qed.

Lemma objects_insert_annotation (db : DB) (model model' : AnnotationClass)
    (row : Annotation) :
  objects (AnnotationList.insert_annotation db model row) model'
  = if bool_decide (model = model') then objects db model' ++ [row] else objects db model'.
Proof. by destruct model, model'. Qed.

Lemma insert_annotation_frame (db : DB) (model : AnnotationClass) (row : Annotation) :
  users (AnnotationList.insert_annotation db model row) = users db
  ∧ projects (AnnotationList.insert_annotation db model row) = projects db
  ∧ documents (AnnotationList.insert_annotation db model row) = documents db
  ∧ labels (AnnotationList.insert_annotation db model row) = labels db.
Proof. by destruct model. Qed.

Lemma get_object_or_404_insert_annotation (db : DB) (model : AnnotationClass)
    (row : Annotation) (pk : Z) :
  get_object_or_404 (AnnotationList.insert_annotation db model row) pk
  = get_object_or_404 db pk.
Proof. by destruct model. Qed.

(** The ways [create] can end: an exception with the database as it was,
    or 201 with one row appended to the table of the project's model. *)
Lemma create_cases
    (serializer_is_valid : DB → AnnotationClass → gmap string JSON → Result AnnotationBody)
    (db : DB) (project_id doc_id : Z) (user : User) (request_data : gmap string JSON)
    (r : Result Response) (db' : DB) :
  AnnotationList.create serializer_is_valid db project_id doc_id user request_data = (r, db') →
  (∃ e, r = Raise e ∧ db' = db)
  ∨ (∃ project body,
       r = Ok (mkResponse JNull HTTP_201_CREATED)
       ∧ get_object_or_404 db project_id = Ok project
       ∧ AnnotationList.check_single_class_classification db project_id doc_id user = Ok tt
       ∧ serializer_is_valid db (get_annotation_class project)
           (<["document" := JInt doc_id]> request_data) = Ok body
       ∧ db' = AnnotationList.insert_annotation db (get_annotation_class project)
                 (mkAnnotation
                    (AnnotationList.next_id
                       (ann_id <$> objects db (get_annotation_class project)))
                    doc_id (user_id user) body)).
Proof.
  unfold AnnotationList.create, AnnotationList.super_create,
    AnnotationList.perform_create.
  destruct (AnnotationList.check_single_class_classification db project_id doc_id user)
    as [[]|e]; [|intros [= <- <-]; left; eauto].
  destruct (get_object_or_404 db project_id) as [project|e];
    [|intros [= <- <-]; left; eauto].
  destruct (serializer_is_valid db (get_annotation_class project) _) as [body|e] eqn:Hvalid;
    [|intros [= <- <-]; left; eauto].
  intros [= <- <-]. right. by exists project, body.
Qed.

(** In a single-class project the guard rejects a creation exactly when
    the user's annotation list of the document is not empty. *)
Theorem guard_rejects_iff_listing_nonempty (db : DB) (project_id doc_id : Z)
    (user : User) (project : Project) :
  get_object_or_404 db project_id = Ok project →
  single_class_classification project = true →
  ∃ queryset : list Annotation,
    AnnotationList.get_queryset db project_id doc_id user = Ok queryset
    ∧ (AnnotationList.check_single_class_classification db project_id doc_id user
         = Raise (ValidationError AnnotationList.duplicate_detail)
       ↔ queryset ≠ [])
    ∧ (AnnotationList.check_single_class_classification db project_id doc_id user = Ok tt
       ↔ queryset = []).
Proof.
  intros Hproject Hsingle.
  unfold AnnotationList.get_queryset, AnnotationList.check_single_class_classification.
  rewrite Hproject. cbn [mbind result_bind]. rewrite Hsingle. cbn [negb].
  eexists. split; [reflexivity|].
  destruct (if negb (collaborative_annotation project) then _ else _) as [|a rows];
    cbn [AnnotationList.exists_]; split; split; done.
Qed.

Lemma guard_rejects_iff_listing_witness :
  get_object_or_404 Sample.db 10 = Ok Sample.reviews
  ∧ single_class_classification Sample.reviews = true
  ∧ ∃ queryset : list Annotation,
      AnnotationList.get_queryset Sample.db 10 1 Sample.alice = Ok queryset
      ∧ (AnnotationList.check_single_class_classification Sample.db 10 1 Sample.alice
           = Raise (ValidationError AnnotationList.duplicate_detail)
         ↔ queryset ≠ [])
      ∧ (AnnotationList.check_single_class_classification Sample.db 10 1 Sample.alice
           = Ok tt
         ↔ queryset = []).
Proof.
  split; [reflexivity|]. split; [reflexivity|].
  exact (guard_rejects_iff_listing_nonempty Sample.db 10 1 Sample.alice Sample.reviews
           eq_refl eq_refl).
Defined.



(** In a single-class project a creation that succeeded cannot be
    repeated: a further creation on the same document by the same user,
    or by any user when the project is collaborative, is rejected as a
    duplicate and writes nothing. *)
Theorem second_creation_is_rejected
    (serializer_is_valid serializer_is_valid' :
       DB → AnnotationClass → gmap string JSON → Result AnnotationBody)
    (db : DB) (project_id doc_id : Z) (user user' : User)
    (request_data request_data' : gmap string JSON)
    (project : Project) (response : Response) (db' : DB) :
  get_object_or_404 db project_id = Ok project →
  single_class_classification project = true →
  AnnotationList.create serializer_is_valid db project_id doc_id user request_data
    = (Ok response, db') →
  collaborative_annotation project = true ∨ user_id user' = user_id user →
  AnnotationList.create serializer_is_valid' db' project_id doc_id user' request_data'
  = (Raise (ValidationError AnnotationList.duplicate_detail), db').
Proof.
  intros Hproject Hsingle Hcreate Hscope.
  apply create_cases in Hcreate
    as [(e & [=] & _)|(project0 & body & _ & Hproject0 & _ & _ & ->)].
  rewrite Hproject in Hproject0. injection Hproject0 as <-.
  unfold AnnotationList.create.
  rewrite (check_single_class_classification_spec _ _ _ _ project)
    by by rewrite get_object_or_404_insert_annotation.
  rewrite Hsingle. cbn [andb].
  rewrite objects_insert_annotation, bool_decide_eq_true_2 by done.
  rewrite existsb_app. cbn [existsb]. unfold Spec.in_scope at 2.
  cbn [ann_document ann_user]. rewrite Z.eqb_refl. cbn [andb].
  assert (collaborative_annotation project || (user_id user =? user_id user') = true) as ->.
  { destruct Hscope as [-> | ->]; [done|]. rewrite Z.eqb_refl. apply orb_true_r. }
  cbn [orb]. by rewrite orb_true_r.
Qed.

Lemma second_creation_witness :
  get_object_or_404 Sample.db 10 = Ok Sample.reviews
  ∧ single_class_classification Sample.reviews = true
  ∧ AnnotationList.create Sample.accept_any Sample.db 10 3 Sample.alice ∅
    = (Ok (mkResponse JNull HTTP_201_CREATED),
       AnnotationList.insert_annotation Sample.db DocumentAnnotation
         (mkAnnotation 3 3 1 (Classification 6)))
  ∧ AnnotationList.create Sample.accept_any
      (AnnotationList.insert_annotation Sample.db DocumentAnnotation
         (mkAnnotation 3 3 1 (Classification 6))) 10 3 Sample.alice ∅
    = (Raise (ValidationError AnnotationList.duplicate_detail),
       AnnotationList.insert_annotation Sample.db DocumentAnnotation
         (mkAnnotation 3 3 1 (Classification 6))).
Proof.
  split; [reflexivity|]. split; [reflexivity|]. split; [reflexivity|].
  exact (second_creation_is_rejected Sample.accept_any Sample.accept_any Sample.db 10 3
           Sample.alice Sample.alice ∅ ∅ Sample.reviews _ _
           eq_refl eq_refl eq_refl (or_intror eq_refl)).
Defined.

(** A creation that ends in an exception leaves the database as it was,
    and no creation touches the users, the projects, the documents or the
    labels. *)
Theorem create_writes_annotations_only
    (serializer_is_valid : DB → AnnotationClass → gmap string JSON → Result AnnotationBody)
    (db : DB) (project_id doc_id : Z) (user : User) (request_data : gmap string JSON)
    (r : Result Response) (db' : DB) :
  AnnotationList.create serializer_is_valid db project_id doc_id user request_data = (r, db') →
  (∀ e, r = Raise e → db' = db)
  ∧ users db' = users db ∧ projects db' = projects db
  ∧ documents db' = documents db ∧ labels db' = labels db.
Proof.
  intros Hcreate.
  apply create_cases in Hcreate
    as [(e & -> & ->)|(project & body & -> & _ & _ & _ & ->)].
  - done.
  - split; [done|]. apply insert_annotation_frame.
Qed.

Lemma create_writes_annotations_only_witness :
  AnnotationList.create Sample.accept_any Sample.db 12 1 Sample.alice ∅
    = (Raise Http404, Sample.db)
  ∧ (∀ e, Raise (A := Response) Http404 = Raise e → Sample.db = Sample.db)
  ∧ users Sample.db = users Sample.db ∧ projects Sample.db = projects Sample.db
  ∧ documents Sample.db = documents Sample.db ∧ labels Sample.db = labels Sample.db.
Proof.
  split; [reflexivity|].
  exact (create_writes_annotations_only Sample.accept_any Sample.db 12 1 Sample.alice ∅
           _ _ eq_refl).
Defined.

(** Creation keeps the ids of every annotation table unique. *)
Theorem create_keeps_annotation_ids_unique
    (serializer_is_valid : DB → AnnotationClass → gmap string JSON → Result AnnotationBody)
    (db : DB) (project_id doc_id : Z) (user : User) (request_data : gmap string JSON)
    (r : Result Response) (db' : DB) :
  (∀ model, NoDup (ann_id <$> objects db model)) →
  AnnotationList.create serializer_is_valid db project_id doc_id user request_data = (r, db') →
  ∀ model, NoDup (ann_id <$> objects db' model).
Proof.
  intros Hnd Hcreate model.
  apply create_cases in Hcreate
    as [(e & -> & ->)|(project & body & -> & _ & _ & _ & ->)]; [done|].
  rewrite objects_insert_annotation. case_bool_decide as Hmodel; [|done]. subst model.
  rewrite fmap_app. apply NoDup_app. split; [done|]. split.
  - intros x Hx Hnew. apply list_elem_of_singleton in Hnew. subst x.
    by apply next_id_fresh in Hx.
  - apply NoDup_singleton.
Qed.

Lemma create_keeps_ids_unique_witness :
  (∀ model, NoDup (ann_id <$> objects Sample.db model))
  ∧ AnnotationList.create Sample.accept_any Sample.db 10 1 Sample.bob ∅
    = (Ok (mkResponse JNull HTTP_201_CREATED),
       AnnotationList.insert_annotation Sample.db DocumentAnnotation
         (mkAnnotation 3 1 2 (Classification 6)))
  ∧ ∀ model, NoDup (ann_id <$> objects
      (AnnotationList.insert_annotation Sample.db DocumentAnnotation
         (mkAnnotation 3 1 2 (Classification 6))) model).
Proof.
  assert (∀ model, NoDup (ann_id <$> objects Sample.db model)) as Hnd
    by (intros []; compute_done).
  split; [exact Hnd|]. split; [reflexivity|].
  exact (create_keeps_annotation_ids_unique Sample.accept_any Sample.db 10 1 Sample.bob ∅
           _ _ Hnd eq_refl).
Defined.

(** ** The document list *)

Section OrderBy.
Context {A : Type} (key : A → Z).

Lemma insert_by_perm (x : A) (l : list A) :
  DocumentList.insert_by key x l ≡ₚ x :: l.
Proof.
  induction l as [|y l IH]; [done|]. cbn [DocumentList.insert_by].
  destruct (key x <? key y); [done|]. rewrite IH. apply Permutation_swap.
Qed.

Lemma order_by_snoc (l : list A) (x : A) :
  DocumentList.order_by key (l ++ [x])
  = DocumentList.insert_by key x (DocumentList.order_by key l).
Proof. unfold DocumentList.order_by. by rewrite rev_unit. Qed.

Lemma order_by_perm (l : list A) : DocumentList.order_by key l ≡ₚ l.
Proof.
  induction l as [|x l IH] using rev_ind; [done|].
  rewrite order_by_snoc, insert_by_perm, IH. apply Permutation_cons_append.
Qed.

Lemma insert_by_sorted (x : A) (l : list A) :
  StronglySorted (le_key key) l → StronglySorted (le_key key) (DocumentList.insert_by key x l).
Proof.
  induction l as [|y l IH]; intros Hsorted; cbn [DocumentList.insert_by].
  - by repeat constructor.
  - apply StronglySorted_inv in Hsorted as [Hl Hy].
    destruct (Z.ltb_spec (key x) (key y)) as [Hlt|Hge].
    + constructor; [by constructor|]. constructor; [unfold le_key; lia|].
      eapply Forall_impl; [exact Hy|]. unfold le_key. intros z Hz. cbn in Hz. lia.
    + constructor; [by apply IH|]. rewrite insert_by_perm. by constructor.
Qed.

Lemma order_by_sorted (l : list A) : StronglySorted (le_key key) (DocumentList.order_by key l).
Proof.
  induction l as [|x l IH] using rev_ind; [constructor|].
  rewrite order_by_snoc. by apply insert_by_sorted.
Qed.

Lemma insert_by_last (x : A) (l : list A) :
  Forall (λ y, key y ≤ key x) l → DocumentList.insert_by key x l = l ++ [x].
Proof.
  induction 1 as [|y l Hy Hl IH]; [done|]. cbn [DocumentList.insert_by].
  destruct (Z.ltb_spec (key x) (key y)); [lia|]. by rewrite IH.
Qed.

Lemma StronglySorted_snoc (l : list A) (x : A) :
  StronglySorted (le_key key) (l ++ [x]) →
  StronglySorted (le_key key) l ∧ Forall (λ y, key y ≤ key x) l.
Proof.
  induction l as [|y l IH]; [by repeat constructor|].
  intros Hsorted. cbn in Hsorted.
  apply StronglySorted_inv in Hsorted as [Hl Hy].
  destruct (IH Hl) as [Hsorted Hall].
  apply Forall_app in Hy as [Hyl Hyx]. split.
  - by constructor.
  - constructor; [|done]. rewrite Forall_singleton in Hyx. exact Hyx.
Qed.

Lemma order_by_of_sorted (l : list A) :
  StronglySorted (le_key key) l → DocumentList.order_by key l = l.
Proof.
  induction l as [|x l IH] using rev_ind; [done|].
  intros [Hl Hx]%StronglySorted_snoc.
  by rewrite order_by_snoc, IH, insert_by_last.
Qed.

Lemma StronglySorted_List_filter (f : A → bool) (l : list A) :
  StronglySorted (le_key key) l → StronglySorted (le_key key) (List.filter f l).
Proof.
  induction 1 as [|x l Hl IH Hx]; [constructor|]. cbn [List.filter].
  destruct (f x); [|done]. constructor; [done|].
  apply Forall_forall. intros y Hy%elem_of_List_filter.
  by eapply Forall_forall in Hx; [|apply Hy].
Qed.
End OrderBy.

(** The document list of a project holds exactly the project's documents,
    each one once, in ascending order of the listing key: the id, or the
    id modulo the requesting user's id when the project asks for a
    randomized order. *)
Theorem document_list_sorted_permutation (db : DB) (request_user : User)
    (project_id : Z) (project : Project) :
  get_object_or_404 db project_id = Ok project →
  ∃ queryset : list Document,
    DocumentList.get_queryset db request_user project_id = Ok queryset
    ∧ queryset ≡ₚ project_documents db project
    ∧ StronglySorted (le_key (listing_key project request_user)) queryset.
Proof.
  intros Hproject. unfold DocumentList.get_queryset. rewrite Hproject.
  cbn [mbind result_bind]. eexists. split; [reflexivity|].
  unfold listing_key. destruct (randomize_document_order project).
  - split; [apply order_by_perm|apply order_by_sorted].
  - split; [apply order_by_perm|apply order_by_sorted].
Qed.

Lemma document_list_witness :
  get_object_or_404 Sample.db 10 = Ok Sample.reviews
  ∧ ∃ queryset : list Document,
      DocumentList.get_queryset Sample.db Sample.bob 10 = Ok queryset
      ∧ queryset ≡ₚ project_documents Sample.db Sample.reviews
      ∧ StronglySorted (le_key (listing_key Sample.reviews Sample.bob)) queryset.
Proof.
  split; [reflexivity|].
  exact (document_list_sorted_permutation Sample.db Sample.bob 10 Sample.reviews eq_refl).
Defined.

(** When the document table is in ascending order of id, as it is when
    ids are handed out in insertion order, the document list of a project
    without randomized order is the project's documents in table order. *)
Theorem plain_document_list_is_table_order (db : DB) (request_user : User)
    (project_id : Z) (project : Project) :
  get_object_or_404 db project_id = Ok project →
  randomize_document_order project = false →
  StronglySorted (le_key doc_id) (documents db) →
  DocumentList.get_queryset db request_user project_id
  = Ok (project_documents db project).
Proof.
  intros Hproject Hplain Hsorted. unfold DocumentList.get_queryset.
  rewrite Hproject. cbn [mbind result_bind]. rewrite Hplain.
  rewrite order_by_of_sorted; [done|]. by apply StronglySorted_List_filter.
Qed.

Lemma plain_document_list_witness :
  get_object_or_404 Sample.db 11 = Ok Sample.entities
  ∧ randomize_document_order Sample.entities = false
  ∧ StronglySorted (le_key doc_id) (documents Sample.db)
  ∧ DocumentList.get_queryset Sample.db Sample.bob 11
    = Ok (project_documents Sample.db Sample.entities).
Proof.
  assert (StronglySorted (le_key doc_id) (documents Sample.db)) as Hsorted.
  { repeat (constructor; [|repeat constructor; unfold le_key; cbn; lia]). constructor. }
  split; [reflexivity|]. split; [reflexivity|]. split; [exact Hsorted|].
  exact (plain_document_list_is_table_order Sample.db Sample.bob 11 Sample.entities
           eq_refl eq_refl Hsorted).
Defined.

(** ** Upload and download dispatch *)

(** Format tokens and parsers correspond one to one: a token selects a
    parser exactly when it is the token of that parser; tokens are
    compared as they are, so another spelling selects nothing. *)
Theorem select_parser_inverse (file_format : string) (parser : Parser) :
  TextUploadAPI.select_parser file_format = Ok parser ↔ file_format = format_name parser.
Proof.
  split.
  - unfold TextUploadAPI.select_parser.
    destruct (String.eqb_spec file_format "plain") as [->|_]; [by intros [= <-]|].
    destruct (String.eqb_spec file_format "csv") as [->|_]; [by intros [= <-]|].
    destruct (String.eqb_spec file_format "json") as [->|_]; [by intros [= <-]|].
    destruct (String.eqb_spec file_format "conll") as [->|_]; [by intros [= <-]|].
    destruct (String.eqb_spec file_format "excel") as [->|_]; [by intros [= <-]|].
    destruct (String.eqb_spec file_format "audio") as [->|_]; [by intros [= <-]|].
    done.
  - intros ->. by destruct parser.
Qed.

(** The same upload in upper case is rejected. *)
Example upper_case_format_is_unknown :
  TextUploadAPI.select_parser "CSV" = Raise (ValidationError "format CSV is invalid.").
Proof. reflexivity. Qed.

(** An upload request without a file or without a format, for a project
    that does not exist, or with an unknown format ends in an exception
    before the parser and the storage run: the database and the file
    position are as before. *)
Theorem upload_rejected_before_parsing
    (File Data : Type)
    (parse : Parser → File → World → Result Data * World)
    (storage_save : Project → Data → User → World → Result unit * World)
    (user : User) (request : TextUploadAPI.UploadRequest File) (project_id : Z)
    (w : World) :
  TextUploadAPI.request_file File request = None
  ∨ TextUploadAPI.request_format File request = None
  ∨ get_object_or_404 (world_db w) project_id = Raise Http404
  ∨ (∃ file_format, TextUploadAPI.request_format File request = Some file_format
                    ∧ file_format ∉ Spec.import_formats) →
  ∃ e, TextUploadAPI.post File Data parse storage_save user request project_id w
       = (Raise e, w).
Proof.
  unfold TextUploadAPI.post, TextUploadAPI.save_file.
  destruct (TextUploadAPI.request_file File request) as [file|]; [|by eexists].
  destruct (TextUploadAPI.request_format File request) as [file_format|]; [|by eexists].
  destruct (get_object_or_404 (world_db w) project_id) as [project|e]; [|by eexists].
  intros [[=]|[[=]|[[=]|(f & [= <-] & Hunknown)]]].
  rewrite (select_parser_unknown _ Hunknown). by eexists.
Qed.

Lemma upload_rejected_witness :
  (TextUploadAPI.request_file (list string)
     (TextUploadAPI.mkUploadRequest (list string) None (Some "plain")) = None
   ∨ TextUploadAPI.request_format (list string)
       (TextUploadAPI.mkUploadRequest (list string) None (Some "plain")) = None
   ∨ get_object_or_404 (world_db (mkWorld Sample.db 0)) 10 = Raise Http404
   ∨ (∃ file_format,
        TextUploadAPI.request_format (list string)
          (TextUploadAPI.mkUploadRequest (list string) None (Some "plain"))
        = Some file_format
        ∧ file_format ∉ Spec.import_formats))
  ∧ ∃ e, TextUploadAPI.post (list string) (list string) Sample.read_lines
           Sample.store_lines Sample.alice
           (TextUploadAPI.mkUploadRequest (list string) None (Some "plain"))
           10 (mkWorld Sample.db 0)
         = (Raise e, mkWorld Sample.db 0).
Proof.
  split; [by left|].
  exact (upload_rejected_before_parsing (list string) (list string) Sample.read_lines
           Sample.store_lines Sample.alice
           (TextUploadAPI.mkUploadRequest (list string) None (Some "plain"))
           10 (mkWorld Sample.db 0) (or_introl eq_refl)).
Defined.

(** The cloud-bucket upload saves a file exactly as the text upload does,
    for every parser, storage, format and project. *)
Theorem gcp_save_file_is_text_save_file
    (File Data : Type)
    (parse : Parser → File → World → Result Data * World)
    (storage_save : Project → Data → User → World → Result unit * World)
    (user : User) (file : File) (file_format : string) (project_id : Z) (w : World) :
  GCPUploadAPI.save_file File Data parse storage_save user file file_format project_id w
  = TextUploadAPI.save_file File Data parse storage_save user file file_format project_id w.
Proof.
  unfold GCPUploadAPI.save_file, TextUploadAPI.save_file.
  destruct (get_object_or_404 (world_db w) project_id) as [project|e]; [|done].
  assert (GCPUploadAPI.select_parser file_format = TextUploadAPI.select_parser file_format)
    as -> by (unfold GCPUploadAPI.select_parser, TextUploadAPI.select_parser;
              by repeat case_match).
  done.
Qed.

(** The export accepts the formats csv, json and json1 and no other; a
    request without the parameter q is rejected as format None; and the
    cloud-bucket export selects the same painter for every format. *)
Theorem select_painter_formats (q : option string) (format : string) :
  ((∃ painter, TextDownloadAPI.select_painter q = Ok painter)
   ↔ ∃ f, q = Some f ∧ f ∈ export_formats)
  ∧ TextDownloadAPI.select_painter None
    = Raise (ValidationError "format None is invalid.")
  ∧ GCPDownloaderAPI.select_painter format = TextDownloadAPI.select_painter (Some format).
Proof.
  split; [|split; [reflexivity|]].
  - unfold TextDownloadAPI.select_painter, export_formats. split.
    + intros [painter Hpainter].
      repeat case_bool_decide; cbn [orb] in Hpainter; try done;
        eexists; (split; [eassumption|]); set_solver.
    + intros (f & -> & Hf). rewrite !elem_of_cons in Hf.
      destruct Hf as [->|[->|[->|Hnil]]]; [by eexists..|by apply elem_of_nil in Hnil].
  - unfold GCPDownloaderAPI.select_painter, TextDownloadAPI.select_painter.
    destruct (String.eqb_spec format "csv") as [->|Hcsv].
    { by rewrite bool_decide_eq_true_2. }
    rewrite bool_decide_eq_false_2 by congruence.
    destruct (String.eqb_spec format "json") as [->|Hjson].
    { by rewrite bool_decide_eq_true_2. }
    rewrite (bool_decide_eq_false_2 (Some format = Some "json")) by congruence.
    destruct (String.eqb_spec format "json1") as [->|Hjson1].
    { by rewrite bool_decide_eq_true_2. }
    by rewrite bool_decide_eq_false_2 by congruence.
Qed.

(** ** Label upload: what is stored *)

Lemma conflicts_sym (x y : Label) : conflicts x y = conflicts y x.
Proof.
  unfold conflicts.
  by rewrite (Z.eqb_sym (label_project x)), (String.eqb_sym (label_text x)),
    (String.eqb_sym (label_shortkey x)).
Qed.

Lemma conflicts_same_name_or_shortkey (project : Project) (label : LabelData)
    (id : Z) (x : Label) :
  conflicts (mkLabel id (project_id project) (data_text label) (data_shortkey label)) x = true
  ↔ Spec.same_name_or_shortkey project label x.
Proof.
  unfold conflicts, Spec.same_name_or_shortkey.
  cbn [label_project label_text label_shortkey].
  rewrite andb_true_iff, orb_true_iff, Z.eqb_eq, !String.eqb_eq. naive_solver.
Qed.

Lemma others_commit_nil (t : Txn) : others_commit [] t = t.
Proof.
  destruct t as [db own mark]. unfold others_commit. cbn [store LabelUploadAPI.own
    needs_rollback]. by rewrite app_nil_r, with_labels_id.
Qed.

(** A successful insert appends one row that holds the entry and
    conflicts with no row that was visible. *)
Lemma serializer_save_ok (project : Project) (label : LabelData) (t t' : Txn) :
  serializer_save project label t = (Ok tt, t') →
  ∃ row, t' = mkTxn (store t) (own t ++ [row]) (needs_rollback t)
    ∧ row_fields row = entry_fields project label
    ∧ (label_id row ∉ label_id <$> visible_labels t)
    ∧ Forall (λ x, conflicts x row = false) (visible_labels t).
Proof.
  unfold serializer_save.
  destruct (existsb _ (visible_labels t)) eqn:Hex; [done|]. intros [= <-].
  eexists. split; [reflexivity|]. split; [reflexivity|].
  split; [apply next_id_fresh|].
  apply Forall_forall. intros x Hx. rewrite conflicts_sym.
  apply not_true_is_false. intros Hconflict.
  apply not_true_iff_false in Hex. apply Hex, existsb_exists.
  exists x. split; [by apply list_elem_of_In|done].
Qed.

(** Running alone, the loop keeps the uniqueness constraints and the
    uniqueness of the ids among the rows it sees, and does not touch the
    committed database. *)
Lemma save_labels_alone (is_valid : LabelData → bool) (project : Project)
    (batch : list LabelData) (t : Txn) (r : Result unit) (t' : Txn) :
  save_labels is_valid project batch [] t = (r, t') →
  store t' = store t
  ∧ (labels_unique (visible_labels t) → labels_unique (visible_labels t'))
  ∧ (NoDup (label_id <$> visible_labels t) → NoDup (label_id <$> visible_labels t')).
Proof.
  revert t. induction batch as [|l batch IH]; intros t Hrun.
  - cbn in Hrun. by injection Hrun as <- <-.
  - cbn [save_labels hd tl] in Hrun. rewrite others_commit_nil in Hrun.
    destruct (is_valid l); [|by injection Hrun as <- <-].
    destruct (serializer_save project l t) as [[[]|e] t1] eqn:Hsave;
      [|injection Hrun as <- <-].
    + apply serializer_save_ok in Hsave as (row & -> & _ & Hfresh & Hfree).
      apply IH in Hrun as (Hstore & Hunique & Hids). cbn [store] in Hstore.
      split; [done|]. unfold visible_labels in *. cbn [store own] in *.
      rewrite app_assoc in Hunique, Hids. split.
      * intros Hu. apply Hunique. unfold labels_unique in *.
        apply StronglySorted_app_2; [|done|by repeat constructor].
        intros x1 x2 Hx1 Hx2. apply list_elem_of_singleton in Hx2 as ->.
        by eapply Forall_forall in Hfree.
      * intros Hnd. apply Hids. rewrite fmap_app. apply NoDup_app.
        split; [done|]. split; [|apply NoDup_singleton].
        intros x Hx Hnew. apply list_elem_of_singleton in Hnew. by subst x.
    + destruct (serializer_save_cases project l t) as [Hcase|(row & Hcase & _)];
        rewrite Hcase in Hsave; [|done].
      by injection Hsave as _ <-.
Qed.

(** A label upload that runs alone keeps the uniqueness constraints of
    the label table and the uniqueness of the label ids, whatever the
    batch and however the upload ends. *)
Theorem label_upload_keeps_labels_unique (is_valid : LabelData → bool)
    (request_file : option (list LabelData)) (project_id : Z) (db db' : DB)
    (r : Result Response) :
  labels_unique (labels db) →
  NoDup (label_id <$> labels db) →
  post is_valid [] request_file project_id db = (r, db') →
  labels_unique (labels db') ∧ NoDup (label_id <$> labels db').
Proof.
  intros Hunique Hids. unfold post, atomic.
  destruct request_file as [batch|]; cbn [store]; [|by intros [= <- <-]].
  destruct (get_object_or_404 db project_id) as [project|e]; [|by intros [= <- <-]].
  destruct (save_labels is_valid project batch [] (mkTxn db [] false)) as [r0 t'] eqn:Hrun.
  apply save_labels_alone in Hrun as (Hstore & Hu & Hnd).
  unfold visible_labels in Hu, Hnd. cbn [store own] in Hstore, Hu, Hnd.
  rewrite app_nil_r in Hu, Hnd. rewrite Hstore in Hu, Hnd.
  assert (labels_unique (labels (with_labels (store t') (visible_labels t')))
          ∧ NoDup (label_id <$> labels (with_labels (store t') (visible_labels t'))))
    as Hcommit.
  { unfold visible_labels. cbn [with_labels labels]. rewrite Hstore. auto. }
  destruct r0 as [[]|[]]; try destruct (needs_rollback t');
    intros [= <- <-]; rewrite ?Hstore; done.
Qed.

Lemma label_upload_keeps_unique_witness :
  labels_unique (labels Sample.db)
  ∧ NoDup (label_id <$> labels Sample.db)
  ∧ post Sample.accept_label [] (Some [Sample.negative; Sample.neutral]) 10 Sample.db
    = (Ok (mkResponse JNull HTTP_201_CREATED),
       with_labels Sample.db
         (labels Sample.db ++ [mkLabel 7 10 "negative" "n"; mkLabel 8 10 "neutral" "u"]))
  ∧ labels_unique
      (labels Sample.db ++ [mkLabel 7 10 "negative" "n"; mkLabel 8 10 "neutral" "u"])
  ∧ NoDup (label_id <$>
      labels Sample.db ++ [mkLabel 7 10 "negative" "n"; mkLabel 8 10 "neutral" "u"]).
Proof.
  assert (labels_unique (labels Sample.db)) as Hunique by (by repeat constructor).
  assert (NoDup (label_id <$> labels Sample.db)) as Hids by compute_done.
  split; [exact Hunique|]. split; [exact Hids|]. split; [reflexivity|].
  exact (label_upload_keeps_labels_unique Sample.accept_label
           (Some [Sample.negative; Sample.neutral]) 10 Sample.db _ _
           Hunique Hids eq_refl).
Defined.

(** Running alone on valid entries that differ from one another and from
    the rows in sight, the loop inserts one row per entry, in order. *)
Lemma save_labels_clean (is_valid : LabelData → bool) (project : Project)
    (batch : list LabelData) (t : Txn) :
  (∀ l, l ∈ batch → is_valid l = true) →
  (∀ l, l ∈ batch → fresh_for project (visible_labels t) l) →
  distinct_entries batch →
  ∃ rows, save_labels is_valid project batch [] t
          = (Ok tt, mkTxn (store t) (own t ++ rows) (needs_rollback t))
    ∧ row_fields <$> rows = entry_fields project <$> batch.
Proof.
  revert t. induction batch as [|l batch IH]; intros t Hvalid Hfresh Hdistinct.
  - exists []. cbn [save_labels]. rewrite app_nil_r. by destruct t.
  - cbn [save_labels hd tl]. rewrite others_commit_nil.
    rewrite (Hvalid l) by by left.
    apply StronglySorted_inv in Hdistinct as [Hdistinct Hl].
    destruct (serializer_save_cases project l t)
      as [Hsave|(row & Hsave & Hrow_project & Hrow_text & Hrow_key)].
    { exfalso. unfold serializer_save in Hsave.
      destruct (existsb _ (visible_labels t)) eqn:Hex; [|done].
      apply existsb_exists in Hex as (x & Hx & Hconflict).
      apply conflicts_same_name_or_shortkey in Hconflict.
      by apply (Hfresh l (list_elem_of_here _ _) x); [apply list_elem_of_In|]. }
    rewrite Hsave.
    destruct (IH (mkTxn (store t) (own t ++ [row]) (needs_rollback t)))
      as (rows & Hrun & Hfields); [intros l' Hl'; apply Hvalid; by right| |done|].
    { intros l' Hl' x Hx. unfold visible_labels in Hx. cbn [store own] in Hx.
      rewrite app_assoc in Hx. apply elem_of_app in Hx as [Hx|Hx].
      - apply (Hfresh l'); [by right|done].
      - apply list_elem_of_singleton in Hx as ->.
        intros (_ & Hsame). rewrite Hrow_text, Hrow_key in Hsame.
        eapply Forall_forall in Hl; [|exact Hl']. destruct Hl as [Htext Hkey].
        by destruct Hsame. }
    exists (row :: rows). cbn [store own needs_rollback] in Hrun.
    rewrite Hrun, <- app_assoc. split; [done|].
    rewrite !fmap_cons, Hfields. f_equal.
    unfold row_fields, entry_fields. by rewrite Hrow_project, Hrow_text, Hrow_key.
Qed.

(** An upload that runs alone, of valid entries that differ pairwise in
    name and shortkey and share neither with a label of the project, is
    answered 201 and appends one row per entry, in the order of the file,
    with the entry's name and shortkey. *)
Theorem clean_label_batch_is_stored (is_valid : LabelData → bool)
    (batch : list LabelData) (project_id : Z) (project : Project) (db : DB) :
  get_object_or_404 db project_id = Ok project →
  (∀ l, l ∈ batch → is_valid l = true) →
  (∀ l, l ∈ batch → fresh_for project (labels db) l) →
  distinct_entries batch →
  ∃ rows : list Label,
    post is_valid [] (Some batch) project_id db
    = (Ok (mkResponse JNull HTTP_201_CREATED), with_labels db (labels db ++ rows))
    ∧ row_fields <$> rows = entry_fields project <$> batch.
Proof.
  intros Hproject Hvalid Hfresh Hdistinct.
  destruct (save_labels_clean is_valid project batch (mkTxn db [] false))
    as (rows & Hrun & Hfields); [done| |done|].
  { unfold visible_labels. cbn [store own]. by rewrite app_nil_r. }
  exists rows. split; [|done].
  unfold post, atomic. cbn [store]. by rewrite Hproject, Hrun.
Qed.

Lemma clean_label_batch_witness :
  get_object_or_404 Sample.db 10 = Ok Sample.reviews
  ∧ (∀ l, l ∈ [Sample.negative; Sample.neutral] → Sample.accept_label l = true)
  ∧ (∀ l, l ∈ [Sample.negative; Sample.neutral] →
          fresh_for Sample.reviews (labels Sample.db) l)
  ∧ distinct_entries [Sample.negative; Sample.neutral]
  ∧ ∃ rows : list Label,
      post Sample.accept_label [] (Some [Sample.negative; Sample.neutral]) 10 Sample.db
      = (Ok (mkResponse JNull HTTP_201_CREATED),
         with_labels Sample.db (labels Sample.db ++ rows))
      ∧ row_fields <$> rows
        = entry_fields Sample.reviews <$> [Sample.negative; Sample.neutral].
Proof.
  assert (∀ l, l ∈ [Sample.negative; Sample.neutral] → Sample.accept_label l = true)
    as Hvalid by done.
  assert (∀ l, l ∈ [Sample.negative; Sample.neutral] →
               fresh_for Sample.reviews (labels Sample.db) l) as Hfresh.
  { intros l Hl x Hx (Hproject & Hsame). cbn in Hx.
    repeat (apply elem_of_cons in Hl as [->|Hl]);
      [| |by apply elem_of_nil in Hl];
      repeat (apply elem_of_cons in Hx as [->|Hx]);
      try (by apply elem_of_nil in Hx); cbn in Hproject, Hsame;
      try done; by destruct Hsame. }
  assert (distinct_entries [Sample.negative; Sample.neutral]) as Hdistinct
    by (by repeat constructor).
  split; [reflexivity|]. split; [exact Hvalid|]. split; [exact Hfresh|].
  split; [exact Hdistinct|].
  exact (clean_label_batch_is_stored Sample.accept_label [Sample.negative; Sample.neutral]
           10 Sample.reviews Sample.db eq_refl Hvalid Hfresh Hdistinct).
Defined.

(** A label upload changes nothing but the label table, and the label
    table only by appending rows: those other requests commit meanwhile
    and, on success, its own. *)
Theorem label_upload_only_appends_labels (is_valid : LabelData → bool)
    (others : list (list Label)) (request_file : option (list LabelData))
    (project_id : Z) (db db' : DB) (r : Result Response) :
  post is_valid others request_file project_id db = (r, db') →
  ∃ rows : list Label, db' = with_labels db (labels db ++ rows).
Proof.
  unfold post, atomic.
  assert (db = with_labels db (labels db ++ [])) as Hzero
    by by rewrite app_nil_r, with_labels_id.
  destruct request_file as [batch|]; cbn [store];
    [|intros [= <- <-]; by exists []].
  destruct (get_object_or_404 db project_id) as [project|e];
    [|intros [= <- <-]; by exists []].
  destruct (save_labels is_valid project batch others (mkTxn db [] false))
    as [r0 t'] eqn:Hrun.
  apply save_labels_store in Hrun as (k & _ & Hstore & _). cbn [store] in Hstore.
  assert (with_labels (store t') (visible_labels t')
          = with_labels db (labels db ++ (concat (take k others) ++ own t'))) as Hcommit.
  { unfold visible_labels. rewrite Hstore. cbn [with_labels labels users projects documents
      doc_annotations seq_annotations seq2seq_annotations]. by rewrite app_assoc. }
  destruct r0 as [[]|[]]; try destruct (needs_rollback t');
    intros [= <- <-]; rewrite ?Hcommit, ?Hstore; by eexists.
Qed.

Lemma label_upload_only_appends_witness :
  post Sample.accept_label [[mkLabel 7 10 "negative" "n"]] (Some [Sample.neutral])
    10 Sample.db
  = (Ok (mkResponse JNull HTTP_201_CREATED),
     with_labels Sample.db
       (labels Sample.db ++ [mkLabel 7 10 "negative" "n"; mkLabel 8 10 "neutral" "u"]))
  ∧ ∃ rows : list Label,
      with_labels Sample.db
        (labels Sample.db ++ [mkLabel 7 10 "negative" "n"; mkLabel 8 10 "neutral" "u"])
      = with_labels Sample.db (labels Sample.db ++ rows).
Proof.
  split; [reflexivity|].
  exact (label_upload_only_appends_labels Sample.accept_label
           [[mkLabel 7 10 "negative" "n"]] (Some [Sample.neutral]) 10 Sample.db _ _
           eq_refl).
Defined.

Lemma post_failure_persists_nothing_witness :
  post reject_neutral [] (Some [Sample.negative; Sample.neutral; Sample.positive])
    10 Sample.db
  = (Raise (ValidationError "invalid label"), Sample.db)
  ∧ Raise (ValidationError "invalid label") ≠ Ok (mkResponse JNull HTTP_201_CREATED)
  ∧ ∃ k : nat, Sample.db = with_labels Sample.db (labels Sample.db ++ concat (take k [])).
Proof.
  assert (Raise (ValidationError "invalid label")
          ≠ Ok (mkResponse JNull HTTP_201_CREATED)) as Hfail by done.
  split; [reflexivity|]. split; [exact Hfail|].
  exact (post_failure_persists_nothing reject_neutral []
           (Some [Sample.negative; Sample.neutral; Sample.positive]) 10 Sample.db _ _
           eq_refl Hfail).
Defined.

(** ** Approving the annotations of a document *)

Lemma get_document_or_404_id (db : DB) (pk : Z) (d : Document) :
  ApproveLabelsAPI.get_document_or_404 db pk = Ok d → doc_id d = pk.
Proof.
  unfold ApproveLabelsAPI.get_document_or_404.
  destruct (List.find _ (documents db)) as [d'|] eqn:Hfind; [|done].
  intros [= <-]. apply find_some in Hfind as [_ Hid]. by apply Z.eqb_eq.
Qed.

Lemma approve_post_spec (request_user : User)
    (request_data : gmap string ApproveLabelsAPI.PyValue) (doc_id : Z)
    (s : ApproveLabelsAPI.Store) (d : Document) :
  ApproveLabelsAPI.get_document_or_404 (ApproveLabelsAPI.store_db s) doc_id = Ok d →
  let approver :=
    if ApproveLabelsAPI.truthy
         (default (ApproveLabelsAPI.PyBool true) (request_data !! "approved"))
    then Some (user_id request_user) else None in
  ∃ s', ApproveLabelsAPI.post request_user request_data doc_id s = (Ok approver, s')
    ∧ ApproveLabelsAPI.store_db s' = ApproveLabelsAPI.store_db s
    ∧ ApproveLabelsAPI.annotations_approved_by s' !! doc_id = approver
    ∧ (∀ other, other ≠ doc_id →
         ApproveLabelsAPI.annotations_approved_by s' !! other
         = ApproveLabelsAPI.annotations_approved_by s !! other).
Proof.
  intros Hdoc approver. unfold ApproveLabelsAPI.post. rewrite Hdoc.
  rewrite (get_document_or_404_id _ _ _ Hdoc). fold approver.
  eexists. split; [reflexivity|]. split; [done|].
  cbn [ApproveLabelsAPI.annotations_approved_by].
  destruct approver as [u|].
  - rewrite lookup_insert_eq. split; [done|]. intros other Hother.
    by rewrite lookup_insert_ne.
  - rewrite lookup_delete_eq. split; [done|]. intros other Hother.
    by rewrite lookup_delete_ne.
Qed.

(** The approver of a document is decided by the last approval request
    alone: after two requests on the same document its approver is the
    second requesting user when the second request's field approved is
    true in Python's sense or absent, and nobody otherwise; the approvers
    of the other documents and the rest of the database are as before
    the two requests. *)
Theorem last_approval_decides (user1 user2 : User)
    (request_data1 request_data2 : gmap string ApproveLabelsAPI.PyValue)
    (doc_id : Z) (s : ApproveLabelsAPI.Store) (d : Document) :
  ApproveLabelsAPI.get_document_or_404 (ApproveLabelsAPI.store_db s) doc_id = Ok d →
  let s1 := (ApproveLabelsAPI.post user1 request_data1 doc_id s).2 in
  let approver :=
    if ApproveLabelsAPI.truthy
         (default (ApproveLabelsAPI.PyBool true) (request_data2 !! "approved"))
    then Some (user_id user2) else None in
  ∃ s2, ApproveLabelsAPI.post user2 request_data2 doc_id s1 = (Ok approver, s2)
    ∧ ApproveLabelsAPI.store_db s2 = ApproveLabelsAPI.store_db s
    ∧ ApproveLabelsAPI.annotations_approved_by s2 !! doc_id = approver
    ∧ (∀ other, other ≠ doc_id →
         ApproveLabelsAPI.annotations_approved_by s2 !! other
         = ApproveLabelsAPI.annotations_approved_by s !! other).
Proof.
  intros Hdoc s1 approver.
  destruct (approve_post_spec user1 request_data1 doc_id s d Hdoc)
    as (s1' & Hpost1 & Hdb1 & _ & Hother1).
  assert (s1 = s1') as -> by (subst s1; by rewrite Hpost1).
  destruct (approve_post_spec user2 request_data2 doc_id s1' d)
    as (s2 & Hpost2 & Hdb2 & Hdoc2 & Hother2); [by rewrite Hdb1|].
  exists s2. split; [done|]. split; [congruence|]. split; [done|].
  intros other Hother. by rewrite Hother2, Hother1.
Qed.

Lemma last_approval_witness :
  ApproveLabelsAPI.get_document_or_404
    (ApproveLabelsAPI.store_db (ApproveLabelsAPI.mkStore Sample.db ∅)) 2
  = Ok (mkDocument 2 10 "second")
  ∧ ∃ s2,
      ApproveLabelsAPI.post Sample.bob {["approved" := ApproveLabelsAPI.PyStr ""]} 2
        (ApproveLabelsAPI.post Sample.alice ∅ 2 (ApproveLabelsAPI.mkStore Sample.db ∅)).2
      = (Ok None, s2)
      ∧ ApproveLabelsAPI.store_db s2 = Sample.db
      ∧ ApproveLabelsAPI.annotations_approved_by s2 !! 2 = None
      ∧ (∀ other, other ≠ 2 →
           ApproveLabelsAPI.annotations_approved_by s2 !! other = (∅ : gmap Z Z) !! other).
Proof.
  split; [reflexivity|].
  exact (last_approval_decides Sample.alice Sample.bob ∅
           {["approved" := ApproveLabelsAPI.PyStr ""]} 2
           (ApproveLabelsAPI.mkStore Sample.db ∅) (mkDocument 2 10 "second") eq_refl).
Defined.

(** A request without the field approved approves. *)
Example approval_by_default :
  (ApproveLabelsAPI.post Sample.alice ∅ 2 (ApproveLabelsAPI.mkStore Sample.db ∅)).1
  = Ok (Some 1).
Proof. reflexivity. Qed.

(** ** Statistics, listing, export and creation together *)

Lemma List_filter_snoc_false {A : Type} (f : A → bool) (l : list A) (x : A) :
  f x = false → List.filter f (l ++ [x]) = List.filter f l.
Proof.
  intros Hx. rewrite List.filter_app. cbn [List.filter]. rewrite Hx. apply app_nil_r.
Qed.

Lemma values_username_document_insert (db : DB) (model : AnnotationClass)
    (a : Annotation) (rows : list Annotation) :
  StatisticsAPI.values_username_document (AnnotationList.insert_annotation db model a) rows
  = StatisticsAPI.values_username_document db rows.
Proof. by destruct model. Qed.

(** The progress of a project depends on its own documents and on the
    annotations of those documents only: a document added to another
    project, or an annotation added on a document outside the project,
    changes nothing. *)
Theorem progress_ignores_other_projects (db : DB) (request_user : User)
    (project : Project) (d : Document) (a : Annotation) :
  doc_project d ≠ project_id project →
  ann_document a ∉ doc_id <$> project_documents db project →
  StatisticsAPI.progress (Spec.add_document db d) request_user project
    = StatisticsAPI.progress db request_user project
  ∧ ∀ model,
      StatisticsAPI.progress (AnnotationList.insert_annotation db model a)
        request_user project
      = StatisticsAPI.progress db request_user project.
Proof.
  intros Hother Houtside. split.
  - unfold StatisticsAPI.progress, StatisticsAPI._get_user_completion_data.
    assert (project_documents (Spec.add_document db d) project = project_documents db project)
      as ->; [|done].
    unfold project_documents, Spec.add_document. cbn [documents].
    apply List_filter_snoc_false. by apply Z.eqb_neq.
  - intros model.
    unfold StatisticsAPI.progress, StatisticsAPI._get_user_completion_data.
    assert (project_documents (AnnotationList.insert_annotation db model a) project
            = project_documents db project) as ->
      by (unfold project_documents;
          by rewrite (proj1 (proj2 (proj2 (insert_annotation_frame db model a))))).
    assert (Q_document_id__in (project_documents db project) a = false) as Hout
      by by apply bool_decide_eq_false.
    rewrite values_username_document_insert, !objects_insert_annotation.
    case_bool_decide; [|done].
    rewrite !List_filter_snoc_false; [done|done|].
    destruct (collaborative_annotation project); cbn [negb]; [done|].
    unfold Q_and. by rewrite Hout.
Qed.

Lemma progress_ignores_other_projects_witness :
  doc_project (mkDocument 9 11 "elsewhere") ≠ project_id Sample.reviews
  ∧ (ann_document (mkAnnotation 3 4 1 (Classification 6))
       ∉ doc_id <$> project_documents Sample.db Sample.reviews)
  ∧ StatisticsAPI.progress (Spec.add_document Sample.db (mkDocument 9 11 "elsewhere"))
      Sample.alice Sample.reviews
    = StatisticsAPI.progress Sample.db Sample.alice Sample.reviews
  ∧ ∀ model,
      StatisticsAPI.progress
        (AnnotationList.insert_annotation Sample.db model
           (mkAnnotation 3 4 1 (Classification 6)))
        Sample.alice Sample.reviews
      = StatisticsAPI.progress Sample.db Sample.alice Sample.reviews.
Proof.
  assert (doc_project (mkDocument 9 11 "elsewhere") ≠ project_id Sample.reviews)
    as Hother by done.
  assert (ann_document (mkAnnotation 3 4 1 (Classification 6))
            ∉ doc_id <$> project_documents Sample.db Sample.reviews) as Houtside
    by compute_done.
  split; [exact Hother|]. split; [exact Houtside|].
  exact (progress_ignores_other_projects Sample.db Sample.alice Sample.reviews
           (mkDocument 9 11 "elsewhere") (mkAnnotation 3 4 1 (Classification 6))
           Hother Houtside).
Defined.

(** The total of the statistics is the number of documents the document
    list of the project returns. *)
Theorem document_counts_agree (db : DB) (request_user : User) (project_id : Z)
    (project : Project) :
  get_object_or_404 db project_id = Ok project →
  ∃ listing : list Document,
    DocumentList.get_queryset db request_user project_id = Ok listing
    ∧ StatisticsAPI.progress db request_user project !! "total"
      = Some (VInt (Z.of_nat (length listing))).
Proof.
  intros Hproject.
  assert (∃ listing, DocumentList.get_queryset db request_user project_id = Ok listing
                     ∧ length listing = length (project_documents db project))
    as (listing & Hlisting & Hlength).
  { unfold DocumentList.get_queryset. rewrite Hproject. cbn [mbind result_bind].
    eexists. split; [reflexivity|].
    destruct (randomize_document_order project);
      apply Permutation_length, order_by_perm. }
  exists listing. split; [done|]. by rewrite progress_total, Hlength.
Qed.

Lemma document_counts_agree_witness :
  get_object_or_404 Sample.db 10 = Ok Sample.reviews
  ∧ ∃ listing : list Document,
      DocumentList.get_queryset Sample.db Sample.bob 10 = Ok listing
      ∧ StatisticsAPI.progress Sample.db Sample.bob Sample.reviews !! "total"
        = Some (VInt (Z.of_nat (length listing))).
Proof.
  split; [reflexivity|].
  exact (document_counts_agree Sample.db Sample.bob 10 Sample.reviews eq_refl).
Defined.

Lemma existsb_pointwise {A : Type} (f g : A → bool) (l : list A) :
  (∀ x, f x = g x) → existsb f l = existsb g l.
Proof.
  intros Hext. induction l as [|x l IH]; [done|]. cbn [existsb]. by rewrite Hext, IH.
Qed.

Lemma annotated_by_snoc (rows : list Annotation) (row : Annotation)
    (q : Annotation → bool) (d : Document) :
  Spec.annotated_by (rows ++ [row]) q d
  = Spec.annotated_by rows q d || ((ann_document row =? doc_id d) && q row).
Proof.
  unfold Spec.annotated_by. rewrite existsb_app. cbn [existsb]. by rewrite orb_false_r.
Qed.

(** Marking the document with id [doc] as done adds one to the count when
    that document is among [docs] and was not done, and nothing otherwise. *)
Lemma count_one_more (p : Document → bool) (docs : list Document) (doc : Z) :
  NoDup (doc_id <$> docs) →
  length (List.filter (λ d, p d || (doc =? doc_id d)) docs)
  = (length (List.filter p docs)
     + if existsb (λ d, (doc =? doc_id d)%Z && negb (p d)) docs then 1 else 0)%nat.
Proof.
  induction docs as [|d docs IH]; intros Hnd; [done|].
  rewrite fmap_cons in Hnd. apply NoDup_cons in Hnd as [Hd Hnd].
  cbn [List.filter existsb]. destruct (Z.eqb_spec doc (doc_id d)) as [->|Hne].
  - assert (existsb (λ d0, (doc_id d =? doc_id d0) && negb (p d0)) docs = false) as Hrest.
    { apply not_true_is_false. intros (d0 & Hd0 & Hq)%existsb_exists.
      apply andb_true_iff in Hq as [Heq _]. apply Z.eqb_eq in Heq.
      apply Hd. rewrite Heq. apply list_elem_of_fmap_2. by apply list_elem_of_In. }
    specialize (IH Hnd). rewrite Hrest in IH.
    rewrite orb_true_r, Hrest. cbn [andb orb length]. rewrite IH.
    destruct (p d); cbn [negb andb orb length]; lia.
  - rewrite orb_false_r. cbn [andb orb]. specialize (IH Hnd).
    destruct (p d); cbn [length]; lia.
Qed.

(** A successful creation on a document of the project lowers the
    creating user's remaining count by one when the user's annotation list
    of the document was empty, and leaves it as it is otherwise. *)
Theorem creation_updates_remaining
    (serializer_is_valid : DB → AnnotationClass → gmap string JSON → Result AnnotationBody)
    (db : DB) (project_id doc_id : Z) (user : User) (request_data : gmap string JSON)
    (project : Project) (queryset : list Annotation) (remaining : Z)
    (response : Response) (db' : DB) :
  NoDup (Models.doc_id <$> documents db) →
  get_object_or_404 db project_id = Ok project →
  doc_id ∈ Models.doc_id <$> project_documents db project →
  AnnotationList.get_queryset db project_id doc_id user = Ok queryset →
  StatisticsAPI.progress db user project !! "remaining" = Some (VInt remaining) →
  AnnotationList.create serializer_is_valid db project_id doc_id user request_data
    = (Ok response, db') →
  StatisticsAPI.progress db' user project !! "remaining"
  = Some (VInt (match queryset with [] => remaining - 1 | _ :: _ => remaining end)).
Proof.
  intros Hnd Hproject Hdoc Hlisting Hremaining Hcreate.
  apply create_cases in Hcreate
    as [(e & [=] & _)|(project0 & body & _ & Hproject0 & _ & _ & ->)].
  rewrite Hproject in Hproject0. injection Hproject0 as <-.
  set (row := mkAnnotation _ doc_id (user_id user) body).
  destruct (insert_annotation_frame db (get_annotation_class project) row)
    as (_ & _ & Hdocuments & _).
  rewrite progress_remaining in Hremaining by done. injection Hremaining as <-.
  rewrite progress_remaining by by rewrite Hdocuments.
  assert (project_documents (AnnotationList.insert_annotation db
                               (get_annotation_class project) row) project
          = project_documents db project) as ->
    by (unfold project_documents; by rewrite Hdocuments).
  rewrite objects_insert_annotation, bool_decide_eq_true_2 by done.
  set (rows := objects db (get_annotation_class project)).
  set (docs := project_documents db project) in *.
  set (q := Spec.qualifies project user).
  assert (q row = true) as Hrow.
  { subst q row. unfold Spec.qualifies. cbn [ann_user]. rewrite Z.eqb_refl.
    apply orb_true_r. }
  unfold Spec.count_documents.
  rewrite (List.filter_ext (Spec.annotated_by (rows ++ [row]) q)
             (λ d, Spec.annotated_by rows q d || (doc_id =? Models.doc_id d)))
    by (intros d; rewrite annotated_by_snoc, Hrow; subst row; cbn [ann_document];
        by rewrite andb_true_r).
  rewrite count_one_more by by apply project_documents_NoDup.
  (* the document was done before exactly when the listing is not empty *)
  assert (queryset = List.filter (Spec.in_scope project doc_id user) rows) as Hqueryset.
  { unfold AnnotationList.get_queryset in Hlisting. rewrite Hproject in Hlisting.
    cbn [mbind result_bind] in Hlisting. injection Hlisting as <-.
    apply guard_filter_in_scope. }
  assert (∀ d, Models.doc_id d = doc_id →
               Spec.annotated_by rows q d = existsb (Spec.in_scope project doc_id user) rows)
    as Hdone.
  { intros d Hd. unfold Spec.annotated_by. apply existsb_pointwise. intros a.
    unfold Spec.in_scope, q, Spec.qualifies. by rewrite Hd. }
  assert (existsb (λ d, (doc_id =? Models.doc_id d) && negb (Spec.annotated_by rows q d)) docs
          = negb (existsb (Spec.in_scope project doc_id user) rows)) as ->.
  { apply list_elem_of_fmap in Hdoc as (d0 & Hd0 & Hin).
    destruct (existsb (Spec.in_scope project doc_id user) rows) eqn:Hscope; cbn [negb].
    - apply not_true_is_false. intros (d & _ & Hd)%existsb_exists.
      apply andb_true_iff in Hd as [Heq Hnot]. apply Z.eqb_eq in Heq.
      by rewrite (Hdone d) in Hnot.
    - apply existsb_exists. exists d0. split; [by apply list_elem_of_In|].
      rewrite (Hdone d0) by done. by rewrite Hd0, Z.eqb_refl. }
  rewrite <- exists_filter_existsb, <- Hqueryset.
  do 2 f_equal. destruct queryset; cbn [AnnotationList.exists_ negb]; lia.
Qed.

Lemma creation_updates_remaining_witness :
  NoDup (doc_id <$> documents Sample.db)
  ∧ get_object_or_404 Sample.db 10 = Ok Sample.reviews
  ∧ 3 ∈ doc_id <$> project_documents Sample.db Sample.reviews
  ∧ AnnotationList.get_queryset Sample.db 10 3 Sample.alice = Ok []
  ∧ StatisticsAPI.progress Sample.db Sample.alice Sample.reviews !! "remaining"
    = Some (VInt 1)
  ∧ AnnotationList.create Sample.accept_any Sample.db 10 3 Sample.alice ∅
    = (Ok (mkResponse JNull HTTP_201_CREATED),
       AnnotationList.insert_annotation Sample.db DocumentAnnotation
         (mkAnnotation 3 3 1 (Classification 6)))
  ∧ StatisticsAPI.progress
      (AnnotationList.insert_annotation Sample.db DocumentAnnotation
         (mkAnnotation 3 3 1 (Classification 6)))
      Sample.alice Sample.reviews !! "remaining"
    = Some (VInt (1 - 1)).
Proof.
  assert (NoDup (doc_id <$> documents Sample.db)) as Hnd by compute_done.
  assert (3 ∈ doc_id <$> project_documents Sample.db Sample.reviews) as Hdoc
    by compute_done.
  assert (StatisticsAPI.progress Sample.db Sample.alice Sample.reviews !! "remaining"
          = Some (VInt 1)) as Hremaining by by vm_compute.
  split; [exact Hnd|]. split; [reflexivity|]. split; [exact Hdoc|].
  split; [reflexivity|]. split; [exact Hremaining|]. split; [reflexivity|].
  exact (creation_updates_remaining Sample.accept_any Sample.db 10 3 Sample.alice ∅
           Sample.reviews [] 1 _ _ Hnd eq_refl Hdoc eq_refl Hremaining eq_refl).
Defined.
